(** * uml_analyzer: graph model, analyzer and view filter

    A shallow embedding of [graph_builder.py], [analyzer.py] and [filter.py].

    Conventions of the embedding.
    - A Python [str] is a [string], an [int] is a [Z], a [set] of node ids is
      a [gset string], a [dict] keyed by strings is a [gmap string _].
    - A Python [float] that the code only compares, divides or passes on is
      the exact rational it denotes ([Qc]): [2.0] is [2], [1.8] is [9/5],
      and [a / b] on two ints is the exact quotient.  Rounding is not
      modelled.
    - A call that can raise returns a [result]; a method that reads or writes
      object fields is a function from the object's state to a result and
      the new state.
    - networkx, python-louvain and [parser.py] are not part of the modelled
      sources.  [nx.DiGraph] is modelled by its documented behaviour (module
      [nx]); PageRank, betweenness, Louvain partitioning and
      [DiagramData.get_namespaces] are parameters of the development. *)

From Stdlib Require Import QArith Qcanon.
From stdpp Require Import gmap strings list fin_maps pretty.

Local Open Scope string_scope.
Local Open Scope Z_scope.

(* stdpp's solvers clear hypotheses that are already gone *)
#[local] Set Warnings "-clear-no-such-hyp".

(** ** Exceptions and results *)

Inductive exn : Type :=
  | KeyError (key : string)
  | NetworkXError (msg : string)
  | ValueError (msg : string)
  | LibraryError (msg : string).

(** [str(e)] as the handlers print it. *)
Definition exn_message (e : exn) : string :=
  match e with
  | KeyError k => "'" ++ k ++ "'"
  | NetworkXError m => m
  | ValueError m => m
  | LibraryError m => m
  end.

Inductive result (A : Type) : Type :=
  | Return (a : A)
  | Raise (e : exn).
Arguments Return {A} a.
Arguments Raise {A} e.

Definition result_bind {A B} (r : result A) (k : A → result B) : result B :=
  match r with
  | Return a => k a
  | Raise e => Raise e
  end.

#[global] Instance result_ret : MRet result := λ A a, Return a.
#[global] Instance result_mbind : MBind result := λ A B k r, result_bind r k.

(** A [for] loop whose body may raise: the first exception ends the loop. *)
Fixpoint for_each {A S} (body : S → A → result S) (acc : S) (l : list A)
  : result S :=
  match l with
  | [] => Return acc
  | x :: l' => result_bind (body acc x) (λ acc', for_each body acc' l')
  end.

(** Methods over an object state [S]: the state survives an exception, with
    whatever the method had written before raising. *)
Definition method (S A : Type) : Type := S → result A * S.

Definition m_ret {S A} (a : A) : method S A := λ s, (Return a, s).
Definition m_raise {S A} (e : exn) : method S A := λ s, (Raise e, s).
Definition m_bind {S A B} (m : method S A) (k : A → method S B) : method S B :=
  λ s, match m s with
       | (Return a, s') => k a s'
       | (Raise e, s') => (Raise e, s')
       end.
Definition m_get {S} : method S S := λ s, (Return s, s).
Definition m_modify {S} (f : S → S) : method S unit := λ s, (Return tt, f s).
Definition m_lift {S A} (r : result A) : method S A := λ s, (r, s).

(** [try: body / except Exception as e: handler e]. *)
Definition try_except {S A} (body : method S A) (handler : exn → method S A)
  : method S A :=
  λ s, match body s with
       | (Return a, s') => (Return a, s')
       | (Raise e, s') => handler e s'
       end.

#[global] Instance method_ret {S} : MRet (method S) := λ A a, m_ret a.
#[global] Instance method_mbind {S} : MBind (method S) := λ A B k m, m_bind m k.

(** ** Input records ([parser.py]) *)

Module parser.

(** Modelled from the spec: the element record handed over by the parser
  (section 6: id, name, fully qualified name, display name, namespace, kind,
  abstract flag, template flag, member count, method count and a numeric
  complexity score); [parser.py] itself is not among the sources. *)
Record ClassElement : Type := {
ce_id : string;
ce_name : string;
ce_full_name : string;
ce_display_name : string;
ce_namespace : string;
ce_type : string;
ce_is_abstract : bool;
ce_is_template : bool;
ce_member_count : Z;
ce_method_count : Z;
ce_complexity_score : Qc;
}.

(** Modelled from the spec: the relationship record (section 6: source id,
  destination id, kind, optional label, optional access qualifier). *)
Record Relationship : Type := {
rel_source : string;
rel_destination : string;
rel_type : string;
rel_label : option string;
rel_access : option string;
}.

(** [DiagramData]: [elements] is the dict id -> element in the order of its
  [items()], [relationships] the list of relationships.  A list of pairs
  also covers a repeated key, which a dict cannot hold. *)
Record DiagramData : Type := {
elements : list (string * ClassElement);
relationships : list Relationship;
}.

#[global] Instance ClassElement_eq_dec : EqDecision ClassElement.
Proof. solve_decision. Defined.
#[global] Instance Relationship_eq_dec : EqDecision Relationship.
Proof. solve_decision. Defined.

End parser.
Abbreviation ClassElement := parser.ClassElement.
Abbreviation Relationship := parser.Relationship.
Abbreviation DiagramData := parser.DiagramData.

(** ** networkx's directed graph *)

Module nx.

(** The attribute dict of a node; a key that is absent is [None]. *)
Record NodeAttrs : Type := {
  name : option string;
  full_name : option string;
  display_name : option string;
  namespace : option string;
  type : option string;
  is_abstract : option bool;
  is_template : option bool;
  member_count : option Z;
  method_count : option Z;
  complexity : option Qc;
  element : option ClassElement;
}.

Definition no_attrs : NodeAttrs :=
  {| name := None; full_name := None; display_name := None;
     namespace := None; type := None; is_abstract := None;
     is_template := None; member_count := None; method_count := None;
     complexity := None; element := None |}.

(** [old.update(new)]. *)
Definition update_attrs (old new : NodeAttrs) : NodeAttrs :=
  {| name := new.(name) ∪ old.(name);
     full_name := new.(full_name) ∪ old.(full_name);
     display_name := new.(display_name) ∪ old.(display_name);
     namespace := new.(namespace) ∪ old.(namespace);
     type := new.(type) ∪ old.(type);
     is_abstract := new.(is_abstract) ∪ old.(is_abstract);
     is_template := new.(is_template) ∪ old.(is_template);
     member_count := new.(member_count) ∪ old.(member_count);
     method_count := new.(method_count) ∪ old.(method_count);
     complexity := new.(complexity) ∪ old.(complexity);
     element := new.(element) ∪ old.(element) |}.

(** The attribute dict of an edge. *)
Record EdgeAttrs : Type := {
  e_type : option string;
  e_label : option (option string);
  e_access : option (option string);
  weight : option Qc;
  relationship : option Relationship;
}.

Definition no_edge_attrs : EdgeAttrs :=
  {| e_type := None; e_label := None; e_access := None; weight := None;
     relationship := None |}.

Definition update_edge_attrs (old new : EdgeAttrs) : EdgeAttrs :=
  {| e_type := new.(e_type) ∪ old.(e_type);
     e_label := new.(e_label) ∪ old.(e_label);
     e_access := new.(e_access) ∪ old.(e_access);
     weight := new.(weight) ∪ old.(weight);
     relationship := new.(relationship) ∪ old.(relationship) |}.

(** [DiGraph]: the node dict (its keys in insertion order, and the
    attributes per key) and one attribute dict per ordered pair of
    adjacent nodes: a second edge between the same pair updates the first. *)
Record DiGraph : Type := {
  node_order : list string;
  node_attrs : gmap string NodeAttrs;
  edges : gmap (string * string) EdgeAttrs;
}.

Definition empty : DiGraph :=
  {| node_order := []; node_attrs := ∅; edges := ∅ |}.

(** [n in G]. *)
Definition contains (g : DiGraph) (n : string) : bool :=
  bool_decide (n ∈ dom g.(node_attrs)).

(** [G.add_node(n, **attrs)]. *)
Definition add_node (g : DiGraph) (n : string) (attrs : NodeAttrs) : DiGraph :=
  match g.(node_attrs) !! n with
  | None =>
      {| node_order := g.(node_order) ++ [n];
         node_attrs := <[n := attrs]> g.(node_attrs);
         edges := g.(edges) |}
  | Some old =>
      {| node_order := g.(node_order);
         node_attrs := <[n := update_attrs old attrs]> g.(node_attrs);
         edges := g.(edges) |}
  end.

(** [G.add_edge(u, v, **attrs)]: a missing endpoint is added as a node
    without attributes. *)
Definition ensure_node (g : DiGraph) (n : string) : DiGraph :=
  if contains g n then g else add_node g n no_attrs.

Definition add_edge (g : DiGraph) (u v : string) (attrs : EdgeAttrs) : DiGraph :=
  let g' := ensure_node (ensure_node g u) v in
  let datadict := default no_edge_attrs (g'.(edges) !! (u, v)) in
  {| node_order := g'.(node_order);
     node_attrs := g'.(node_attrs);
     edges := <[(u, v) := update_edge_attrs datadict attrs]> g'.(edges) |}.

Definition pred_set (g : DiGraph) (n : string) : gset string :=
  set_map fst (filter (λ e : string * string, e.2 = n) (dom g.(edges))).
Definition succ_set (g : DiGraph) (n : string) : gset string :=
  set_map snd (filter (λ e : string * string, e.1 = n) (dom g.(edges))).

(** [G.predecessors(n)] and [G.successors(n)] raise for a node that is
    not in the graph. *)
Definition predecessors (g : DiGraph) (n : string) : result (gset string) :=
  if contains g n then Return (pred_set g n)
  else Raise (NetworkXError ("The node " ++ n ++ " is not in the digraph.")).
Definition successors (g : DiGraph) (n : string) : result (gset string) :=
  if contains g n then Return (succ_set g n)
  else Raise (NetworkXError ("The node " ++ n ++ " is not in the digraph.")).

(** [G.nodes[n]]. *)
Definition nodes_getitem (g : DiGraph) (n : string) : result NodeAttrs :=
  match g.(node_attrs) !! n with
  | Some a => Return a
  | None => Raise (KeyError n)
  end.

(** [G.nodes(data=True)], in the order of the node dict. *)
Definition nodes_data (g : DiGraph) : list (string * NodeAttrs) :=
  omap (λ n, (λ a, (n, a)) <$> g.(node_attrs) !! n) g.(node_order).

Definition number_of_nodes (g : DiGraph) : nat := length g.(node_order).
Definition number_of_edges (g : DiGraph) : nat := size g.(edges).

Definition in_degree (g : DiGraph) (n : string) : nat := size (pred_set g n).
Definition out_degree (g : DiGraph) (n : string) : nat := size (succ_set g n).
(** [G.degree(n)]: a self-loop counts on both sides. *)
Definition degree (g : DiGraph) (n : string) : nat :=
  (in_degree g n + out_degree g n)%nat.

(** [G.subgraph(nodes).copy()]: the induced subgraph. *)
Definition subgraph (g : DiGraph) (ns : gset string) : DiGraph :=
  {| node_order := filter (λ n, n ∈ ns) g.(node_order);
     node_attrs := filter (λ kv, kv.1 ∈ ns) g.(node_attrs);
     edges := filter (λ kv, kv.1.1 ∈ ns ∧ kv.1.2 ∈ ns) g.(edges) |}.

(** [nx.density(G)] of a directed graph. *)
Definition density (g : DiGraph) : Qc :=
  let n := number_of_nodes g in
  let m := number_of_edges g in
  if bool_decide (m = 0%nat ∨ (n ≤ 1)%nat) then 0%Qc
  else (Qc_of_Z (Z.of_nat m) / Qc_of_Z (Z.of_nat (n * (n - 1))))%Qc.

(** What every graph built by [add_node] and [add_edge] satisfies. *)
Record wf (g : DiGraph) : Prop := {
  wf_order_nodup : NoDup g.(node_order);
  wf_order_dom : ∀ n, n ∈ g.(node_order) ↔ n ∈ dom g.(node_attrs);
  wf_edges : ∀ u v, (u, v) ∈ dom g.(edges) →
               u ∈ dom g.(node_attrs) ∧ v ∈ dom g.(node_attrs);
}.

End nx.

(** ** graph_builder.py *)

Module GraphBuilder.

(** The object: [self.data] and [self.graph]. *)
Record t : Type := {
  data : DiagramData;
  graph : nx.DiGraph;
}.

(** The table of [_get_relationship_weight]. *)
Definition weights : gmap string Qc :=
  list_to_map
    [ ("extension", Q2Qc 2.0);
      ("composition", Q2Qc 1.8);
      ("aggregation", Q2Qc 1.5);
      ("association", Q2Qc 1.2);
      ("dependency", Q2Qc 0.8) ].

(** [weights.get(rel_type, 1.0)]. *)
Definition _get_relationship_weight (rel_type : string) : Qc :=
  default (Q2Qc 1.0) (weights !! rel_type).

(** The keyword arguments of the [add_node] call. *)
Definition node_kwargs (elem : ClassElement) : nx.NodeAttrs :=
  {| nx.name := Some elem.(parser.ce_name);
     nx.full_name := Some elem.(parser.ce_full_name);
     nx.display_name := Some elem.(parser.ce_display_name);
     nx.namespace := Some elem.(parser.ce_namespace);
     nx.type := Some elem.(parser.ce_type);
     nx.is_abstract := Some elem.(parser.ce_is_abstract);
     nx.is_template := Some elem.(parser.ce_is_template);
     nx.member_count := Some elem.(parser.ce_member_count);
     nx.method_count := Some elem.(parser.ce_method_count);
     nx.complexity := Some elem.(parser.ce_complexity_score);
     nx.element := Some elem |}.

(** The keyword arguments of the [add_edge] call. *)
Definition edge_kwargs (rel : Relationship) (weight : Qc) : nx.EdgeAttrs :=
  {| nx.e_type := Some rel.(parser.rel_type);
     nx.e_label := Some rel.(parser.rel_label);
     nx.e_access := Some rel.(parser.rel_access);
     nx.weight := Some weight;
     nx.relationship := Some rel |}.

(** One round of the first loop of [_build_graph]. *)
Definition add_element (g : nx.DiGraph) (item : string * ClassElement)
  : nx.DiGraph :=
  nx.add_node g item.1 (node_kwargs item.2).

(** One round of the second loop of [_build_graph]. *)
Definition add_relationship (g : nx.DiGraph) (rel : Relationship)
  : nx.DiGraph :=
  if nx.contains g rel.(parser.rel_source) && nx.contains g rel.(parser.rel_destination)
  then
    let weight := _get_relationship_weight rel.(parser.rel_type) in
    nx.add_edge g rel.(parser.rel_source) rel.(parser.rel_destination)
      (edge_kwargs rel weight)
  else g.

Definition _build_graph (d : DiagramData) (g : nx.DiGraph) : nx.DiGraph :=
  foldl add_relationship (foldl add_element g d.(parser.elements))
    d.(parser.relationships).

(** [GraphBuilder(diagram_data)]. *)
Definition init (d : DiagramData) : t :=
  {| data := d; graph := _build_graph d nx.empty |}.

Definition get_neighbors (self : t) (node_id direction : string)
  : result (gset string) :=
  if negb (nx.contains self.(graph) node_id) then Return ∅
  else if decide (direction = "in") then
    nx.predecessors self.(graph) node_id
  else if decide (direction = "out") then
    nx.successors self.(graph) node_id
  else
    p ← nx.predecessors self.(graph) node_id;
    s ← nx.successors self.(graph) node_id;
    Return (p ∪ s).

Definition get_subgraph_by_nodes (self : t) (node_ids : gset string)
  : nx.DiGraph :=
  let valid_nodes :=
    filter (λ nid, nx.contains self.(graph) nid = true) (elements node_ids) in
  nx.subgraph self.(graph) (list_to_set valid_nodes).

(** The body of the inner loop of [get_nodes_within_hops]. *)
Definition collect_layer (self : t) (direction : string)
    (visited next_layer : gset string) (node : string)
  : result (gset string) :=
  neighbors ← get_neighbors self node direction;
  Return (next_layer ∪ (neighbors ∖ visited)).

(** The outer loop of [get_nodes_within_hops], [rounds] being what is left
    of [range(max_hops)]. *)
Fixpoint hops_loop (rounds : nat) (self : t) (direction : string)
    (visited current_layer : gset string) : result (gset string) :=
  match rounds with
  | O => Return visited
  | S rounds' =>
      next_layer ← for_each (collect_layer self direction visited) ∅
                      (elements current_layer);
      if decide (next_layer = ∅) then Return visited
      else hops_loop rounds' self direction (visited ∪ next_layer) next_layer
  end.

Definition get_nodes_within_hops (self : t) (center_node : string)
    (max_hops : Z) (direction : string) : result (gset string) :=
  if negb (nx.contains self.(graph) center_node) then Return ∅
  else hops_loop (Z.to_nat max_hops) self direction
         {[center_node]} {[center_node]}.

(** [namespace.startswith(namespace_pattern)]. *)
Definition startswith (s pattern : string) : bool := String.prefix pattern s.

Definition get_nodes_by_namespace (self : t) (namespace_pattern : string)
  : gset string :=
  foldl (λ (matching_nodes : gset string) (item : string * nx.NodeAttrs),
           let namespace := default "" item.2.(nx.namespace) in
           if startswith namespace namespace_pattern
           then matching_nodes ∪ {[item.1]} else matching_nodes)
        ∅ (nx.nodes_data self.(graph)).

Definition get_graph (self : t) : nx.DiGraph := self.(graph).

End GraphBuilder.


(** ** The libraries behind the analyzer *)

(** What the analyzer and the filter call outside the modelled sources:
    [G.to_undirected()], [nx.pagerank], [nx.betweenness_centrality],
    python-louvain's [best_partition] and [DiagramData.get_namespaces] of
    [parser.py].  Each may raise.  A score dict is the list of its items, in
    the order of the dict. *)
Class Libraries : Type := {
  Graph : Type;
  to_undirected : nx.DiGraph → Graph;
  nx_pagerank : nx.DiGraph → Qc → result (list (string * Qc));
  nx_betweenness_centrality : nx.DiGraph → result (list (string * Qc));
  best_partition : Graph → Qc → result (gmap string Z);
  get_namespaces : DiagramData → result (list string);
}.

(** ** Python built-ins the code uses *)

(** [l[:n]]. *)
Definition slice_to {A} (l : list A) (n : Z) : list A :=
  if bool_decide (0 ≤ n) then take (Z.to_nat n) l
  else take (Z.to_nat (Z.of_nat (length l) + n)) l.

(** [sorted(items, key=lambda x: x[1], reverse=True)]: descending, and
    items of equal score stay in their order. *)
Fixpoint insert_desc (x : string * Qc) (l : list (string * Qc))
  : list (string * Qc) :=
  match l with
  | [] => [x]
  | y :: l' =>
      if bool_decide (y.2 ≤ x.2)%Qc then x :: y :: l'
      else y :: insert_desc x l'
  end.

Definition sorted_desc (items : list (string * Qc)) : list (string * Qc) :=
  foldr insert_desc [] items.

(** [s.replace(old, new)] for a non-empty [old]; [skip] counts the
    characters of a match that are still to be dropped. *)
Fixpoint replace_from (old new : string) (skip : nat) (s : string) : string :=
  match s with
  | EmptyString => EmptyString
  | String c s' =>
      match skip with
      | S k => replace_from old new k s'
      | O =>
          if String.prefix old s
          then new ++ replace_from old new (String.length old - 1) s'
          else String c (replace_from old new O s')
      end
  end.

Definition replace (s old new : string) : string := replace_from old new O s.

(** ** analyzer.py *)

Module GraphAnalyzer.

Record t : Type := {
  graph : nx.DiGraph;
  _pagerank_cache : option (list (string * Qc));
  _betweenness_cache : option (list (string * Qc));
  _communities_cache : option (gmap string Z);
}.

(** [GraphAnalyzer(graph)]. *)
Definition init (g : nx.DiGraph) : t :=
  {| graph := g; _pagerank_cache := None; _betweenness_cache := None;
     _communities_cache := None |}.

Definition set_pagerank_cache (v : list (string * Qc)) (self : t) : t :=
  {| graph := self.(graph); _pagerank_cache := Some v;
     _betweenness_cache := self.(_betweenness_cache);
     _communities_cache := self.(_communities_cache) |}.
Definition set_betweenness_cache (v : list (string * Qc)) (self : t) : t :=
  {| graph := self.(graph); _pagerank_cache := self.(_pagerank_cache);
     _betweenness_cache := Some v;
     _communities_cache := self.(_communities_cache) |}.
Definition set_communities_cache (v : gmap string Z) (self : t) : t :=
  {| graph := self.(graph); _pagerank_cache := self.(_pagerank_cache);
     _betweenness_cache := self.(_betweenness_cache);
     _communities_cache := Some v |}.

(** The per-namespace record of [analyze_namespace_coupling]'s defaultdict. *)
Record ns_stats : Type := {
  nodes : gset string;
  internal_edges : nat;
  external_edges_out : nat;
  external_edges_in : nat;
}.

Definition ns_default : ns_stats :=
  {| nodes := ∅; internal_edges := 0; external_edges_out := 0;
     external_edges_in := 0 |}.

(** One entry of the result of [analyze_namespace_coupling]; [cohesion]
    and [coupling] are the int 0 or a quotient of two ints. *)
Record ns_report : Type := {
  node_count : nat;
  r_internal_edges : nat;
  external_edges : nat;
  cohesion : Qc;
  coupling : Qc;
}.

(** The dict of [get_analysis_summary]. *)
Record summary : Type := {
  total_nodes : nat;
  total_edges : nat;
  communities_count : nat;
  hotspots_count : nat;
  leaf_classes_count : nat;
  root_classes_count : nat;
  top_important_nodes : list (string * string * Qc);
  top_connected_nodes : list (string * string * Qc);
}.

Section WithLibraries.
Context `{Libraries}.

Definition calculate_pagerank (alpha : Qc) : method t (list (string * Qc)) :=
  λ self,
    match self.(_pagerank_cache) with
    | None =>
        match nx_pagerank self.(graph) alpha with
        | Return pr => (Return pr, set_pagerank_cache pr self)
        | Raise e => (Raise e, self)
        end
    | Some cached => (Return cached, self)
    end.

Definition calculate_betweenness_centrality : method t (list (string * Qc)) :=
  λ self,
    match self.(_betweenness_cache) with
    | None =>
        match nx_betweenness_centrality self.(graph) with
        | Return bc => (Return bc, set_betweenness_cache bc self)
        | Raise e => (Raise e, self)
        end
    | Some cached => (Return cached, self)
    end.

(** [nx.degree_centrality(G)]: 1 for every node of a graph of at most one
    node, degree / (n - 1) otherwise. *)
Definition calculate_degree_centrality (self : t) : list (string * Qc) :=
  let g := self.(graph) in
  let n := nx.number_of_nodes g in
  if bool_decide (n ≤ 1)%nat then (λ v, (v, 1%Qc)) <$> g.(nx.node_order)
  else
    (λ v, (v, (Qc_of_Z (Z.of_nat (nx.degree g v))
               / Qc_of_Z (Z.of_nat n - 1))%Qc)) <$> g.(nx.node_order).

Definition degree_items (deg : nx.DiGraph → string → nat) (g : nx.DiGraph)
  : list (string * Qc) :=
  (λ v, (v, Qc_of_Z (Z.of_nat (deg g v)))) <$> g.(nx.node_order).

Definition get_top_nodes_by_metric (metric : string) (top_n : Z)
  : method t (list (string * Qc)) :=
  scores ←
    (if decide (metric = "pagerank") then calculate_pagerank (Q2Qc 0.85)
     else if decide (metric = "betweenness") then
       calculate_betweenness_centrality
     else if decide (metric = "degree") then
       self ← m_get; mret (calculate_degree_centrality self)
     else if decide (metric = "in_degree") then
       self ← m_get; mret (degree_items nx.in_degree self.(graph))
     else if decide (metric = "out_degree") then
       self ← m_get; mret (degree_items nx.out_degree self.(graph))
     else m_raise (ValueError ("Unknown metric: " ++ metric)));
  let sorted_nodes := sorted_desc scores in
  mret (slice_to sorted_nodes top_n).

Definition detect_communities (resolution : Qc) : method t (gmap string Z) :=
  λ self,
    match self.(_communities_cache) with
    | None =>
        let undirected := to_undirected self.(graph) in
        match best_partition undirected resolution with
        | Return part => (Return part, set_communities_cache part self)
        | Raise e => (Raise e, self)
        end
    | Some cached => (Return cached, self)
    end.

(** [community_map[comm_id].add(node_id)] on the defaultdict. *)
Definition community_add (community_map : gmap Z (gset string))
    (item : string * Z) : gmap Z (gset string) :=
  <[item.2 := default ∅ (community_map !! item.2) ∪ {[item.1]}]>
    community_map.

Definition get_community_members (community_id : option Z)
  : method t (gmap Z (gset string)) :=
  communities ← detect_communities (Q2Qc 1.0);
  let community_map := foldl community_add ∅ (map_to_list communities) in
  match community_id with
  | Some cid => mret {[cid := default ∅ (community_map !! cid)]}
  | None => mret community_map
  end.

Definition find_hotspots (self : t) (min_degree min_complexity : Z)
  : gset string :=
  foldl (λ (hotspots : gset string) (item : string * nx.NodeAttrs),
           let degree := nx.degree self.(graph) item.1 in
           let complexity := default 0%Qc item.2.(nx.complexity) in
           if bool_decide (min_degree ≤ Z.of_nat degree)
              && bool_decide (Qc_of_Z min_complexity ≤ complexity)%Qc
           then hotspots ∪ {[item.1]} else hotspots)
        ∅ (nx.nodes_data self.(graph)).

Definition find_leaf_classes (self : t) : gset string :=
  list_to_set
    (filter (λ v, nx.out_degree self.(graph) v = 0%nat)
            self.(graph).(nx.node_order)).

Definition find_root_classes (self : t) : gset string :=
  list_to_set
    (filter (λ v, nx.in_degree self.(graph) v = 0%nat)
            self.(graph).(nx.node_order)).

(** [namespace_stats[ns]] on the defaultdict, and the write back. *)
Definition stats_of (namespace_stats : gmap string ns_stats) (ns : string)
  : ns_stats :=
  default ns_default (namespace_stats !! ns).

Definition add_ns_node (namespace_stats : gmap string ns_stats)
    (item : string * nx.NodeAttrs) : gmap string ns_stats :=
  let namespace := default "" item.2.(nx.namespace) in
  let st := stats_of namespace_stats namespace in
  <[namespace := {| nodes := st.(nodes) ∪ {[item.1]};
                    internal_edges := st.(internal_edges);
                    external_edges_out := st.(external_edges_out);
                    external_edges_in := st.(external_edges_in) |}]>
    namespace_stats.

Definition incr_internal (ns : string) (m : gmap string ns_stats)
  : gmap string ns_stats :=
  let st := stats_of m ns in
  <[ns := {| nodes := st.(nodes);
             internal_edges := st.(internal_edges) + 1;
             external_edges_out := st.(external_edges_out);
             external_edges_in := st.(external_edges_in) |}]> m.
Definition incr_external_out (ns : string) (m : gmap string ns_stats)
  : gmap string ns_stats :=
  let st := stats_of m ns in
  <[ns := {| nodes := st.(nodes);
             internal_edges := st.(internal_edges);
             external_edges_out := st.(external_edges_out) + 1;
             external_edges_in := st.(external_edges_in) |}]> m.
Definition incr_external_in (ns : string) (m : gmap string ns_stats)
  : gmap string ns_stats :=
  let st := stats_of m ns in
  <[ns := {| nodes := st.(nodes);
             internal_edges := st.(internal_edges);
             external_edges_out := st.(external_edges_out);
             external_edges_in := st.(external_edges_in) + 1 |}]> m.

(** [self.graph.nodes[n].get("namespace", "")]. *)
Definition namespace_of (g : nx.DiGraph) (n : string) : result string :=
  attrs ← nx.nodes_getitem g n;
  mret (default "" attrs.(nx.namespace)).

Definition add_ns_edge (g : nx.DiGraph)
    (namespace_stats : gmap string ns_stats) (e : string * string)
  : result (gmap string ns_stats) :=
  source_ns ← namespace_of g e.1;
  target_ns ← namespace_of g e.2;
  if decide (source_ns = target_ns) then
    mret (incr_internal source_ns namespace_stats)
  else
    mret (incr_external_in target_ns
            (incr_external_out source_ns namespace_stats)).

Definition report_of (stats : ns_stats) : ns_report :=
  let node_count := size stats.(nodes) in
  let internal := stats.(internal_edges) in
  let external :=
    (stats.(external_edges_out) + stats.(external_edges_in))%nat in
  let total := (internal + external)%nat in
  {| node_count := node_count;
     r_internal_edges := internal;
     external_edges := external;
     cohesion :=
       if bool_decide (0 < total)%nat
       then (Qc_of_Z (Z.of_nat internal) / Qc_of_Z (Z.of_nat total))%Qc
       else 0%Qc;
     coupling :=
       if bool_decide (0 < node_count)%nat
       then (Qc_of_Z (Z.of_nat external)
             / Qc_of_Z (Z.of_nat node_count))%Qc
       else 0%Qc |}.

Definition analyze_namespace_coupling (self : t)
  : result (gmap string ns_report) :=
  let g := self.(graph) in
  let namespace_stats := foldl add_ns_node ∅ (nx.nodes_data g) in
  result_bind
    (for_each (add_ns_edge g) namespace_stats (map_to_list g.(nx.edges)).*1)
    (λ namespace_stats, Return (report_of <$> namespace_stats)).

(** One entry of the two top-5 lists of the summary. *)
Definition summary_entry (g : nx.DiGraph) (item : string * Qc)
  : result (string * string * Qc) :=
  attrs ← nx.nodes_getitem g item.1;
  mret (item.1, default "" attrs.(nx.name), item.2).

Definition summary_entries (g : nx.DiGraph) (items : list (string * Qc))
  : result (list (string * string * Qc)) :=
  for_each (λ (acc : list (string * string * Qc)) item,
              e ← summary_entry g item; mret (List.app acc [e]))
           [] items.

Definition get_analysis_summary : method t summary :=
  pagerank ← calculate_pagerank (Q2Qc 0.85);
  communities ← detect_communities (Q2Qc 1.0);
  self ← m_get;
  let hotspots := find_hotspots self 5 10 in
  top_important ← get_top_nodes_by_metric "pagerank" 5;
  top_connected ← get_top_nodes_by_metric "degree" 5;
  important ← m_lift (summary_entries self.(graph) top_important);
  connected ← m_lift (summary_entries self.(graph) top_connected);
  mret {| total_nodes := nx.number_of_nodes self.(graph);
          total_edges := nx.number_of_edges self.(graph);
          communities_count :=
            size (list_to_set (map_to_list communities).*2 : gset Z);
          hotspots_count := size hotspots;
          leaf_classes_count := size (find_leaf_classes self);
          root_classes_count := size (find_root_classes self);
          top_important_nodes := important;
          top_connected_nodes := connected |}.

End WithLibraries.
End GraphAnalyzer.

(** ** filter.py *)

Inductive ViewStrategy : Type :=
  | CONTEXT | NAMESPACE | COMMUNITY | HOTSPOT | IMPORTANCE | LAYER.

#[global] Instance ViewStrategy_eq_dec : EqDecision ViewStrategy.
Proof. solve_decision. Defined.

(** [strategy.value]. *)
Definition strategy_value (s : ViewStrategy) : string :=
  match s with
  | CONTEXT => "context"
  | NAMESPACE => "namespace"
  | COMMUNITY => "community"
  | HOTSPOT => "hotspot"
  | IMPORTANCE => "importance"
  | LAYER => "layer"
  end.

(** [list(ViewStrategy)], in the order of the enum's definition. *)
Definition all_strategies : list ViewStrategy :=
  [CONTEXT; NAMESPACE; COMMUNITY; HOTSPOT; IMPORTANCE; LAYER].

Module DiagramFilter.

Record t : Type := {
  data : DiagramData;
  builder : GraphBuilder.t;
  analyzer : GraphAnalyzer.t;
  views : gmap string (gset string);
}.

(** [DiagramFilter(diagram_data, graph_builder, analyzer)]. *)
Definition init (d : DiagramData) (b : GraphBuilder.t) (a : GraphAnalyzer.t)
  : t :=
  {| data := d; builder := b; analyzer := a; views := ∅ |}.

(** [self.views[view_name] = nodes]. *)
Definition store_view (view_name : string) (nodes : gset string) (self : t)
  : t :=
  {| data := self.(data); builder := self.(builder);
     analyzer := self.(analyzer);
     views := <[view_name := nodes]> self.(views) |}.

(** A call of a method of [self.analyzer]. *)
Definition on_analyzer {A} (m : method GraphAnalyzer.t A) : method t A :=
  λ self,
    let '(r, a') := m self.(analyzer) in
    (r, {| data := self.(data); builder := self.(builder); analyzer := a';
           views := self.(views) |}).

(** One node of a view in the statistics of the view. *)
Record node_entry : Type := {
  ne_id : string;
  ne_name : string;
  ne_full_name : string;
}.

(** The dict of [get_view_statistics]; [density] is the int 0 or what
    [nx.density] returns. *)
Record view_statistics : Type := {
  vs_view_name : string;
  vs_node_count : nat;
  vs_edge_count : nat;
  vs_density : Qc;
  vs_nodes : list node_entry;
}.

(** The console and the object, for the method that prints. *)
Record world : Type := {
  self_of : t;
  stdout : list string;
}.

Definition on_self {A} (m : method t A) : method world A :=
  λ w,
    let '(r, s') := m w.(self_of) in
    (r, {| self_of := s'; stdout := w.(stdout) |}).

Definition print (line : string) : method world unit :=
  m_modify (λ w, {| self_of := w.(self_of);
                    stdout := List.app w.(stdout) [line] |}).

Section WithLibraries.
Context `{Libraries}.

(** The scan of [create_context_view] and [_find_node_id_by_name]: the
    first node whose name or full name is [class_name]. *)
Definition name_matches (class_name : string) (item : string * nx.NodeAttrs)
  : bool :=
  bool_decide (item.2.(nx.name) = Some class_name)
  || bool_decide (item.2.(nx.full_name) = Some class_name).

Definition _find_node_id_by_name (self : t) (class_name : string)
  : option string :=
  fst <$> List.find (name_matches class_name)
            (nx.nodes_data self.(builder).(GraphBuilder.graph)).

Definition create_context_view (center_class_name : string) (max_hops : Z)
    (direction : string) (view_name : option string)
  : method t (gset string) :=
  self ← m_get;
  let center_id := _find_node_id_by_name self center_class_name in
  (* [if not center_id]: None and the empty string alike *)
  match center_id with
  | None | Some "" =>
      m_raise (ValueError ("Class not found: " ++ center_class_name))
  | Some center_id =>
      nodes ← m_lift (GraphBuilder.get_nodes_within_hops self.(builder)
                        center_id max_hops direction);
      let view_name :=
        match view_name with
        | None => "context_" ++ center_class_name ++ "_h" ++ pretty max_hops
        | Some v => v
        end in
      m_modify (store_view view_name nodes);;
      mret nodes
  end.

(** One round of the loop of [create_namespace_views]; the state is the
    object and the local dict [namespace_views]. *)
Definition namespace_round (min_nodes : Z)
    (st : t * gmap string (gset string)) (ns : string)
  : t * gmap string (gset string) :=
  let nodes := GraphBuilder.get_nodes_by_namespace st.1.(builder) ns in
  if bool_decide (min_nodes ≤ Z.of_nat (size nodes)) then
    let view_name := "namespace_" ++ replace ns "::" "_" in
    (store_view view_name nodes st.1, <[view_name := nodes]> st.2)
  else st.

Definition create_namespace_views (namespace_list : option (list string))
    (min_nodes : Z) : method t (gmap string (gset string)) :=
  self ← m_get;
  namespace_list ←
    match namespace_list with
    | None => m_lift (get_namespaces self.(data))
    | Some l => mret l
    end;
  let st := foldl (namespace_round min_nodes) (self, ∅) namespace_list in
  m_modify (λ _, st.1);;
  mret st.2.

Definition community_round (min_community_size : Z)
    (st : t * gmap string (gset string)) (item : Z * gset string)
  : t * gmap string (gset string) :=
  if bool_decide (min_community_size ≤ Z.of_nat (size item.2)) then
    let view_name := "community_" ++ pretty item.1 in
    (store_view view_name item.2 st.1, <[view_name := item.2]> st.2)
  else st.

Definition create_community_views (min_community_size : Z)
    (resolution : Qc) : method t (gmap string (gset string)) :=
  communities ← on_analyzer (GraphAnalyzer.detect_communities resolution);
  community_members ← on_analyzer (GraphAnalyzer.get_community_members None);
  self ← m_get;
  let st := foldl (community_round min_community_size) (self, ∅)
              (map_to_list community_members) in
  m_modify (λ _, st.1);;
  mret st.2.

(** [extended.update(self.builder.get_neighbors(node))] for every node
    of [selected]. *)
Definition extend_with_neighbors (self : t) (selected : gset string)
  : result (gset string) :=
  for_each (λ (extended : gset string) node,
              neighbors ← GraphBuilder.get_neighbors self.(builder) node "both";
              mret (extended ∪ neighbors))
           selected (elements selected).

Definition create_hotspot_view (min_degree min_complexity : Z)
    (include_neighbors : bool) : method t (gset string) :=
  self ← m_get;
  let hotspots :=
    GraphAnalyzer.find_hotspots self.(analyzer) min_degree min_complexity in
  hotspots ←
    (if include_neighbors then m_lift (extend_with_neighbors self hotspots)
     else mret hotspots);
  let view_name := "hotspot" in
  m_modify (store_view view_name hotspots);;
  mret hotspots.

Definition create_importance_view (top_n : Z) (metric : string)
    (include_neighbors : bool) : method t (gset string) :=
  top_nodes ← on_analyzer (GraphAnalyzer.get_top_nodes_by_metric metric top_n);
  let important_nodes : gset string := list_to_set top_nodes.*1 in
  self ← m_get;
  important_nodes ←
    (if include_neighbors
     then m_lift (extend_with_neighbors self important_nodes)
     else mret important_nodes);
  let view_name := "importance_" ++ metric ++ "_top" ++ pretty top_n in
  m_modify (store_view view_name important_nodes);;
  mret important_nodes.

(** [get_view]: [self.views.get(view_name)]. *)
Definition get_view (self : t) (view_name : string) : option (gset string) :=
  self.(views) !! view_name.

Definition view_entry (g : nx.DiGraph) (node_id : string)
  : result node_entry :=
  a1 ← nx.nodes_getitem g node_id;
  a2 ← nx.nodes_getitem g node_id;
  mret {| ne_id := node_id;
          ne_name := default "" a1.(nx.name);
          ne_full_name := default "" a2.(nx.full_name) |}.

(** [None] of the [Optional[Dict]] is Python's [None]. *)
Definition get_view_statistics (self : t) (view_name : string)
  : result (option view_statistics) :=
  let nodes := self.(views) !! view_name in
  match nodes with
  | None => Return None
  | Some nodes =>
      if decide (nodes = ∅) then Return None
      else
        let subgraph :=
          GraphBuilder.get_subgraph_by_nodes self.(builder) nodes in
        let density :=
          if bool_decide (1 < size nodes)%nat then nx.density subgraph
          else 0%Qc in
        result_bind
          (for_each (λ (acc : list node_entry) node_id,
                       e ← view_entry self.(builder).(GraphBuilder.graph)
                             node_id;
                       mret (List.app acc [e]))
                    [] (elements nodes))
          (λ entries,
             Return (Some {| vs_view_name := view_name;
                             vs_node_count := size nodes;
                             vs_edge_count := nx.number_of_edges subgraph;
                             vs_density := density;
                             vs_nodes := entries |}))
  end.

(** The body of the [try] in [auto_create_views]; [created_views] is the
    local dict. *)
Definition auto_create_body (created_views : gmap string (gset string))
    (strategy : ViewStrategy) : method t (gmap string (gset string)) :=
  if decide (strategy = NAMESPACE) then
    views ← create_namespace_views None 2;
    mret (views ∪ created_views)
  else if decide (strategy = COMMUNITY) then
    views ← create_community_views 3 (Q2Qc 1.0);
    mret (views ∪ created_views)
  else if decide (strategy = HOTSPOT) then
    nodes ← create_hotspot_view 5 10 true;
    if decide (nodes = ∅) then mret created_views
    else mret (<["hotspot" := nodes]> created_views)
  else if decide (strategy = IMPORTANCE) then
    nodes ← create_importance_view 15 "pagerank" true;
    if decide (nodes = ∅) then mret created_views
    else mret (<["importance_top15" := nodes]> created_views)
  else mret created_views.

Definition auto_create_round (created_views : gmap string (gset string))
    (strategy : ViewStrategy) : method world (gmap string (gset string)) :=
  try_except
    (on_self (auto_create_body created_views strategy))
    (λ e,
       print ("⚠️ Failed to create " ++ strategy_value strategy
              ++ " view: " ++ exn_message e);;
       mret created_views).

Fixpoint auto_create_loop (created_views : gmap string (gset string))
    (strategies : list ViewStrategy)
  : method world (gmap string (gset string)) :=
  match strategies with
  | [] => mret created_views
  | strategy :: rest =>
      created_views ← auto_create_round created_views strategy;
      auto_create_loop created_views rest
  end.

Definition auto_create_views (strategies : option (list ViewStrategy))
  : method world (gmap string (gset string)) :=
  let strategies := default all_strategies strategies in
  auto_create_loop ∅ strategies.

End WithLibraries.
End DiagramFilter.

(** ** The words of the specification *)

Module Spec.

(** The namespace of a node: its [namespace] attribute, the empty string
    without one. *)
Definition node_namespace (g : nx.DiGraph) (n : string) : string :=
  default "" (g.(nx.node_attrs) !! n ≫= nx.namespace).

(** The nodes of a namespace. *)
Definition namespace_nodes (g : nx.DiGraph) (ns : string) : gset string :=
  filter (λ n, node_namespace g n = ns) (dom g.(nx.node_attrs)).

(** Internal edges: both end points in the namespace. *)
Definition internal_edges (g : nx.DiGraph) (ns : string)
  : gset (string * string) :=
  filter (λ e, node_namespace g e.1 = ns ∧ node_namespace g e.2 = ns)
         (dom g.(nx.edges)).

(** External edges: crossing the boundary of the namespace, outwards or
    inwards. *)
Definition external_edges (g : nx.DiGraph) (ns : string)
  : gset (string * string) :=
  filter (λ e, (node_namespace g e.1 = ns ∧ node_namespace g e.2 ≠ ns)
               ∨ (node_namespace g e.1 ≠ ns ∧ node_namespace g e.2 = ns))
         (dom g.(nx.edges)).

(** The namespaces of the graph. *)
Definition namespaces (g : nx.DiGraph) : gset string :=
  set_map (node_namespace g) (dom g.(nx.node_attrs)).

(** [a / b] on two counts. *)
Definition ratio (a b : nat) : Qc :=
  (Qc_of_Z (Z.of_nat a) / Qc_of_Z (Z.of_nat b))%Qc.

(** The edges of the subgraph induced by a set of nodes. *)
Definition induced_edges (g : nx.DiGraph) (nodes : gset string)
  : gset (string * string) :=
  filter (λ e, e.1 ∈ nodes ∧ e.2 ∈ nodes) (dom g.(nx.edges)).

(** The entry of a node in the listing of a view: its identity, its name
    and its full name, the empty string for a missing one. *)
Definition listing_entry (g : nx.DiGraph) (n : string)
  : DiagramFilter.node_entry :=
  {| DiagramFilter.ne_id := n;
     DiagramFilter.ne_name :=
       default "" (g.(nx.node_attrs) !! n ≫= nx.name);
     DiagramFilter.ne_full_name :=
       default "" (g.(nx.node_attrs) !! n ≫= nx.full_name) |}.

End Spec.

(** The end points of a relationship. *)
Definition ends (r : Relationship) : string * string :=
  (r.(parser.rel_source), r.(parser.rel_destination)).

(** The statistics of [ns] after the edge loop has gone through [l],
    relative to the ones before. *)
Definition advanced (g : nx.DiGraph) (l : list (string * string))
    (m m' : gmap string GraphAnalyzer.ns_stats) (ns : string) : Prop :=
  (GraphAnalyzer.stats_of m' ns).(GraphAnalyzer.nodes)
    = (GraphAnalyzer.stats_of m ns).(GraphAnalyzer.nodes)
  ∧ (GraphAnalyzer.stats_of m' ns).(GraphAnalyzer.internal_edges)
    = ((GraphAnalyzer.stats_of m ns).(GraphAnalyzer.internal_edges)
       + length (filter (λ e, Spec.node_namespace g e.1 = ns
                              ∧ Spec.node_namespace g e.2 = ns) l))%nat
  ∧ (GraphAnalyzer.stats_of m' ns).(GraphAnalyzer.external_edges_out)
    = ((GraphAnalyzer.stats_of m ns).(GraphAnalyzer.external_edges_out)
       + length (filter (λ e, Spec.node_namespace g e.1 = ns
                              ∧ Spec.node_namespace g e.2 ≠ ns) l))%nat
  ∧ (GraphAnalyzer.stats_of m' ns).(GraphAnalyzer.external_edges_in)
    = ((GraphAnalyzer.stats_of m ns).(GraphAnalyzer.external_edges_in)
       + length (filter (λ e, Spec.node_namespace g e.1 ≠ ns
                              ∧ Spec.node_namespace g e.2 = ns) l))%nat.


(** ** The life of an analyzer *)

(** The public methods of [GraphAnalyzer], as the calls a client can make on
    one instance. *)
Inductive analyzer_call : Type :=
  | CalculatePagerank (alpha : Qc)
  | CalculateBetweennessCentrality
  | CalculateDegreeCentrality
  | GetTopNodesByMetric (metric : string) (top_n : Z)
  | DetectCommunities (resolution : Qc)
  | GetCommunityMembers (community_id : option Z)
  | FindHotspots (min_degree min_complexity : Z)
  | FindGodClasses (threshold_percentile : Qc)
  | FindLeafClasses
  | FindRootClasses
  | AnalyzeNamespaceCoupling
  | GetAnalysisSummary.

Section AnalyzerLife.
Context `{Libraries}.

(** The instance after a call, whether the call returned or raised.  The
    methods that only read the graph ([find_god_classes] among them, which
    is not modelled further) leave the instance as it is. *)
Definition after_call (self : GraphAnalyzer.t) (c : analyzer_call)
  : GraphAnalyzer.t :=
  match c with
  | CalculatePagerank alpha => (GraphAnalyzer.calculate_pagerank alpha self).2
  | CalculateBetweennessCentrality =>
      (GraphAnalyzer.calculate_betweenness_centrality self).2
  | GetTopNodesByMetric metric top_n =>
      (GraphAnalyzer.get_top_nodes_by_metric metric top_n self).2
  | DetectCommunities resolution =>
      (GraphAnalyzer.detect_communities resolution self).2
  | GetCommunityMembers community_id =>
      (GraphAnalyzer.get_community_members community_id self).2
  | GetAnalysisSummary => (GraphAnalyzer.get_analysis_summary self).2
  | CalculateDegreeCentrality | FindHotspots _ _ | FindGodClasses _
  | FindLeafClasses | FindRootClasses | AnalyzeNamespaceCoupling => self
  end.

Definition after_calls (self : GraphAnalyzer.t) (calls : list analyzer_call)
  : GraphAnalyzer.t :=
  foldl after_call self calls.

(** A method keeps a property of the instance. *)
Definition keeps {A} (P : GraphAnalyzer.t → Prop)
    (m : method GraphAnalyzer.t A) : Prop :=
  ∀ self, P self → P (m self).2.

(** What the caches hold. *)
Definition communities_cached (part : gmap string Z)
    (self : GraphAnalyzer.t) : Prop :=
  self.(GraphAnalyzer._communities_cache) = Some part.
Definition pagerank_cached (pr : list (string * Qc))
    (self : GraphAnalyzer.t) : Prop :=
  self.(GraphAnalyzer._pagerank_cache) = Some pr.

End AnalyzerLife.

(** ** AutoCreate in the words of the specification *)

Section AutoCreateSpec.
Context `{Libraries}.

(** The line printed for a strategy that failed. *)
Definition failure_line (strategy : ViewStrategy) (e : exn) : string :=
  "⚠️ Failed to create " ++ strategy_value strategy ++ " view: "
  ++ exn_message e.

(** A strategy attempted: what it returned, if it returned, and the world
    it leaves; a failure is caught and logged. *)
Definition attempt {A} (strategy : ViewStrategy)
    (m : method DiagramFilter.t A) (w : DiagramFilter.world)
  : option A * DiagramFilter.world :=
  match m w.(DiagramFilter.self_of) with
  | (Return a, f') =>
      (Some a, {| DiagramFilter.self_of := f';
                  DiagramFilter.stdout := w.(DiagramFilter.stdout) |})
  | (Raise e, f') =>
      (None, {| DiagramFilter.self_of := f';
                DiagramFilter.stdout :=
                  List.app w.(DiagramFilter.stdout)
                    [failure_line strategy e] |})
  end.

(** The views a successful attempt contributes to the result. *)
Definition add_views (o : option (gmap string (gset string)))
    (created : gmap string (gset string)) : gmap string (gset string) :=
  match o with
  | Some views => views ∪ created
  | None => created
  end.

Definition add_named (key : string) (o : option (gset string))
    (created : gmap string (gset string)) : gmap string (gset string) :=
  match o with
  | Some nodes => if decide (nodes = ∅) then created
                  else <[key := nodes]> created
  | None => created
  end.

(** AutoCreate as claim C8 words it: the four strategies, each with its
    default parameters, one after the other, failures caught. *)
Definition auto_create_with_defaults (w : DiagramFilter.world)
  : result (gmap string (gset string)) * DiagramFilter.world :=
  let '(o1, w1) :=
    attempt NAMESPACE (DiagramFilter.create_namespace_views None 2) w in
  let '(o2, w2) :=
    attempt COMMUNITY (DiagramFilter.create_community_views 3 (Q2Qc 1.0)) w1 in
  let '(o3, w3) :=
    attempt HOTSPOT (DiagramFilter.create_hotspot_view 5 10 true) w2 in
  let '(o4, w4) :=
    attempt IMPORTANCE
      (DiagramFilter.create_importance_view 20 "pagerank" true) w3 in
  (Return (add_named "importance_top15" o4
             (add_named "hotspot" o3 (add_views o2 (add_views o1 ∅)))),
   w4).

End AutoCreateSpec.

(** * Examples on a three-node graph *)

Module Examples.

Definition elem (id ns : string) (c : Qc) : string * ClassElement :=
  (id, {| parser.ce_id := id; parser.ce_name := id;
          parser.ce_full_name := ns ++ "::" ++ id;
          parser.ce_display_name := id; parser.ce_namespace := ns;
          parser.ce_type := "class"; parser.ce_is_abstract := false;
          parser.ce_is_template := false; parser.ce_member_count := 0;
          parser.ce_method_count := 0; parser.ce_complexity_score := c |}).

Definition rel (s d k : string) : Relationship :=
  {| parser.rel_source := s; parser.rel_destination := d;
     parser.rel_type := k; parser.rel_label := None;
     parser.rel_access := None |}.

(** A -> B (dependency), B -> C (extension), and a relationship to an id
    that is no element. *)
Definition abc : DiagramData :=
  {| parser.elements := [elem "A" "ns1" 0; elem "B" "ns1" 0; elem "C" "ns2" 0];
     parser.relationships :=
       [rel "A" "B" "dependency"; rel "B" "C" "extension";
        rel "C" "ghost" "association"] |}.

Definition abc_builder : GraphBuilder.t := GraphBuilder.init abc.

Definition abc_analyzer : GraphAnalyzer.t :=
  GraphAnalyzer.init (GraphBuilder.get_graph abc_builder).

Definition abc_filter : DiagramFilter.t :=
  DiagramFilter.init abc abc_builder abc_analyzer.

(** Stand-ins for the libraries, to run the examples: every node scores
    the damping factor, every node is in the community numbered by the
    numerator of the resolution, and the namespaces are those of the
    elements. *)
Definition stub_libraries : Libraries :=
  {| Graph := nx.DiGraph;
     to_undirected := λ g, g;
     nx_pagerank := λ g alpha,
       Return ((λ n, (n, alpha)) <$> g.(nx.node_order));
     nx_betweenness_centrality := λ g,
       Return ((λ n, (n, 0%Qc)) <$> g.(nx.node_order));
     best_partition := λ g resolution,
       Return (gset_to_gmap (Qnum resolution) (dom g.(nx.node_attrs)));
     get_namespaces := λ d,
       Return (remove_dups ((λ item, item.2.(parser.ce_namespace))
                             <$> d.(parser.elements))) |}.

(** Libraries of which every call raises. *)
Definition failing_libraries : Libraries :=
  {| Graph := nx.DiGraph;
     to_undirected := λ g, g;
     nx_pagerank := λ _ _, Raise (LibraryError "power iteration failed");
     nx_betweenness_centrality := λ _, Raise (LibraryError "betweenness");
     best_partition := λ _ _, Raise (LibraryError "louvain");
     get_namespaces := λ _, Raise (LibraryError "namespaces") |}.

Definition abc_world : DiagramFilter.world :=
  {| DiagramFilter.self_of := abc_filter; DiagramFilter.stdout := [] |}.

(** The scenario of the specification: a namespace ns1 of X and Y with
    one internal edge and one edge to Z outside. *)
Definition xyz : DiagramData :=
  {| parser.elements := [elem "X" "ns1" 0; elem "Y" "ns1" 0; elem "Z" "ns2" 0];
     parser.relationships :=
       [rel "X" "Y" "association"; rel "Y" "Z" "dependency"] |}.

Definition xyz_analyzer : GraphAnalyzer.t :=
  GraphAnalyzer.init (GraphBuilder.get_graph (GraphBuilder.init xyz)).

(** A view of A and B, stored by hand. *)
Definition pair_filter : DiagramFilter.t :=
  DiagramFilter.store_view "pair" {["A"; "B"]} abc_filter.

End Examples.

(** * Properties of the graph model *)

Section GraphModel.
Implicit Types (self : GraphBuilder.t) (g : nx.DiGraph).
Implicit Types (n center direction : string).

Lemma contains_true g n : nx.contains g n = true ↔ n ∈ dom g.(nx.node_attrs).
Proof. unfold nx.contains. by rewrite bool_decide_eq_true. Qed.

Lemma contains_false g n : nx.contains g n = false ↔ n ∉ dom g.(nx.node_attrs).
Proof. unfold nx.contains. by rewrite bool_decide_eq_false. Qed.

(** [get_neighbors] never raises: the calls of [predecessors] and
    [successors] are behind the membership test. *)
Lemma get_neighbors_present self n direction :
  nx.contains self.(GraphBuilder.graph) n = true →
  GraphBuilder.get_neighbors self n direction =
    Return (if decide (direction = "in") then
              nx.pred_set self.(GraphBuilder.graph) n
            else if decide (direction = "out") then
              nx.succ_set self.(GraphBuilder.graph) n
            else nx.pred_set self.(GraphBuilder.graph) n
                 ∪ nx.succ_set self.(GraphBuilder.graph) n).
Proof.
  intros Hin. unfold GraphBuilder.get_neighbors, nx.predecessors, nx.successors.
  rewrite Hin. simpl. by repeat case_decide.
Qed.

Lemma get_neighbors_absent self n direction :
  nx.contains self.(GraphBuilder.graph) n = false →
  GraphBuilder.get_neighbors self n direction = Return ∅.
Proof. intros Hout. unfold GraphBuilder.get_neighbors. by rewrite Hout. Qed.

Lemma get_neighbors_returns self n direction :
  ∃ s, GraphBuilder.get_neighbors self n direction = Return s.
Proof.
  destruct (nx.contains self.(GraphBuilder.graph) n) eqn:E.
  - eexists. by apply get_neighbors_present.
  - eexists. by apply get_neighbors_absent.
Qed.

Lemma get_neighbors_fallback self n direction :
  direction ≠ "in" → direction ≠ "out" →
  GraphBuilder.get_neighbors self n direction =
  GraphBuilder.get_neighbors self n "both".
Proof.
  intros Hi Ho. destruct (nx.contains self.(GraphBuilder.graph) n) eqn:E.
  - rewrite !get_neighbors_present by done. by repeat case_decide.
  - by rewrite !get_neighbors_absent.
Qed.

(** The inner loop of [get_nodes_within_hops] returns, and only adds to
    what it started from. *)
Lemma collect_layer_loop_returns self direction visited acc l :
  ∃ next, for_each (GraphBuilder.collect_layer self direction visited) acc l
          = Return next.
Proof.
  revert acc. induction l as [|x l IH]; intros acc; simpl; [by eexists|].
  unfold GraphBuilder.collect_layer at 1.
  destruct (get_neighbors_returns self x direction) as [s ->]. simpl.
  apply IH.
Qed.

Lemma collect_layer_loop_fallback self direction visited acc l :
  direction ≠ "in" → direction ≠ "out" →
  for_each (GraphBuilder.collect_layer self direction visited) acc l =
  for_each (GraphBuilder.collect_layer self "both" visited) acc l.
Proof.
  intros Hi Ho. revert acc. induction l as [|x l IH]; intros acc; simpl; [done|].
  unfold GraphBuilder.collect_layer at 1 3.
  rewrite (get_neighbors_fallback self x direction) by done.
  destruct (get_neighbors_returns self x "both") as [s ->]. simpl.
  apply IH.
Qed.

Lemma hops_loop_step rounds self direction visited current :
  ∃ r1 r2,
    GraphBuilder.hops_loop rounds self direction visited current = Return r1
    ∧ GraphBuilder.hops_loop (S rounds) self direction visited current
      = Return r2
    ∧ visited ⊆ r1 ∧ r1 ⊆ r2.
Proof.
  revert visited current.
  induction rounds as [|k IH]; intros visited current.
  - simpl.
    destruct (collect_layer_loop_returns self direction visited ∅
                (elements current)) as [next ->]. simpl.
    case_decide; eexists _, _; (split; [done|]); (split; [done|]);
      set_solver.
  - destruct (collect_layer_loop_returns self direction visited ∅
                (elements current)) as [next Hnext].
    change (GraphBuilder.hops_loop (S (S k)) self direction visited current)
      with (next_layer ← for_each
              (GraphBuilder.collect_layer self direction visited) ∅
              (elements current);
            if decide (next_layer = ∅) then Return visited
            else GraphBuilder.hops_loop (S k) self direction
                   (visited ∪ next_layer) next_layer).
    change (GraphBuilder.hops_loop (S k) self direction visited current)
      with (next_layer ← for_each
              (GraphBuilder.collect_layer self direction visited) ∅
              (elements current);
            if decide (next_layer = ∅) then Return visited
            else GraphBuilder.hops_loop k self direction
                   (visited ∪ next_layer) next_layer).
    rewrite Hnext. simpl. case_decide.
    + eexists _, _. repeat split; done.
    + destruct (IH (visited ∪ next) next) as (r1 & r2 & H1 & H2 & Hv & Hs).
      exists r1, r2. repeat split; try done. set_solver.
Qed.

Lemma hops_loop_fallback rounds self direction visited current :
  direction ≠ "in" → direction ≠ "out" →
  GraphBuilder.hops_loop rounds self direction visited current =
  GraphBuilder.hops_loop rounds self "both" visited current.
Proof.
  intros Hi Ho. revert visited current.
  induction rounds as [|k IH]; intros visited current; simpl; [done|].
  rewrite collect_layer_loop_fallback by done.
  destruct (for_each _ _ _) as [next|e]; simpl; [|done].
  case_decide; [done|]. apply IH.
Qed.

End GraphModel.

(** * Neighbours and bounded-hop traversal *)

Section Traversal.
Context `{Libraries}.
Implicit Types (self : GraphBuilder.t) (g : nx.DiGraph).
Implicit Types (n center direction : string).

Lemma elem_of_pred_set g n u : u ∈ nx.pred_set g n ↔ (u, n) ∈ dom g.(nx.edges).
Proof.
  unfold nx.pred_set. rewrite elem_of_map. split.
  - intros ([a b] & -> & Hf). apply elem_of_filter in Hf as [Hb Hd].
    simpl in *. by subst.
  - intros Hd. exists (u, n). split; [done|]. by apply elem_of_filter.
Qed.

Lemma elem_of_succ_set g n v : v ∈ nx.succ_set g n ↔ (n, v) ∈ dom g.(nx.edges).
Proof.
  unfold nx.succ_set. rewrite elem_of_map. split.
  - intros ([a b] & -> & Hf). apply elem_of_filter in Hf as [Hb Hd].
    simpl in *. by subst.
  - intros Hd. exists (n, v). split; [done|]. by apply elem_of_filter.
Qed.

(** The result for a center that is no node of the graph. *)
Lemma hops_absent_center self center max_hops direction :
  nx.contains self.(GraphBuilder.graph) center = false →
  GraphBuilder.get_nodes_within_hops self center max_hops direction
  = Return ∅.
Proof.
  intros Hc. unfold GraphBuilder.get_nodes_within_hops. by rewrite Hc.
Qed.

(** C3: Neighbors(n, "in") are the predecessors and Neighbors(n, "out")
    the successors of a node n of the graph, Neighbors(n, "both") is the
    union of the two; for an identity that is no node of the graph,
    Neighbors returns the empty set, for every direction, and does not
    raise. *)
Theorem neighbors_both_is_union self n :
  (nx.contains self.(GraphBuilder.graph) n = true →
     GraphBuilder.get_neighbors self n "in"
       = Return (nx.pred_set self.(GraphBuilder.graph) n)
     ∧ GraphBuilder.get_neighbors self n "out"
       = Return (nx.succ_set self.(GraphBuilder.graph) n)
     ∧ GraphBuilder.get_neighbors self n "both"
       = Return (nx.pred_set self.(GraphBuilder.graph) n
                 ∪ nx.succ_set self.(GraphBuilder.graph) n))
  ∧ (nx.contains self.(GraphBuilder.graph) n = false →
     ∀ direction, GraphBuilder.get_neighbors self n direction = Return ∅).
Proof.
  split.
  - intros Hin. by rewrite !get_neighbors_present.
  - intros Hout direction. by apply get_neighbors_absent.
Qed.

(** C2: for a center that is a node of the graph, NodesWithinHops with
    maxHops = 0 is {center}; and for every center, direction and h >= 0
    the result at h hops is a subset of the result at h + 1 hops (both
    calls return). *)
Theorem hops_zero_and_monotone self center direction :
  (nx.contains self.(GraphBuilder.graph) center = true →
     GraphBuilder.get_nodes_within_hops self center 0 direction
     = Return {[center]})
  ∧ (∀ h : Z, 0 ≤ h →
     ∃ r1 r2,
       GraphBuilder.get_nodes_within_hops self center h direction = Return r1
       ∧ GraphBuilder.get_nodes_within_hops self center (h + 1) direction
         = Return r2
       ∧ r1 ⊆ r2).
Proof.
  split.
  - intros Hc. unfold GraphBuilder.get_nodes_within_hops. by rewrite Hc.
  - intros h Hh. unfold GraphBuilder.get_nodes_within_hops.
    destruct (nx.contains _ center); simpl.
    + replace (Z.to_nat (h + 1)) with (S (Z.to_nat h)) by lia.
      destruct (hops_loop_step (Z.to_nat h) self direction
                  {[center]} {[center]}) as (r1 & r2 & H1 & H2 & _ & Hs).
      by exists r1, r2.
    + by exists ∅, ∅.
Qed.

(** What the neighbour expansion of the hotspot and importance views
    computes. *)
Lemma extend_loop self (acc : gset string) (l : list string) :
  ∃ s,
    for_each (λ (extended : gset string) node,
                neighbors ← GraphBuilder.get_neighbors self node "both";
                mret (extended ∪ neighbors)) acc l = Return s
    ∧ ∀ x, x ∈ s ↔
        x ∈ acc
        ∨ ∃ n, n ∈ l ∧ nx.contains self.(GraphBuilder.graph) n = true
               ∧ (x ∈ nx.pred_set self.(GraphBuilder.graph) n
                  ∨ x ∈ nx.succ_set self.(GraphBuilder.graph) n).
Proof.
  revert acc. induction l as [|a l IH]; intros acc; simpl.
  - eexists. split; [done|]. intros x. split; [by left|].
    intros [?|(n & Hn & _)]; [done|]. by apply elem_of_nil in Hn.
  - destruct (nx.contains self.(GraphBuilder.graph) a) eqn:Ea.
    + rewrite get_neighbors_present by done. simpl.
      destruct (IH (acc ∪ (nx.pred_set self.(GraphBuilder.graph) a
                           ∪ nx.succ_set self.(GraphBuilder.graph) a)))
        as (s & -> & Hs).
      exists s. split; [done|]. intros x. rewrite Hs. split.
      * intros [Hx|(n & Hn & Hc & Hx)].
        -- apply elem_of_union in Hx as [Hx|Hx]; [by left|].
           right. exists a. split; [left|]. split; [done|].
           by apply elem_of_union in Hx.
        -- right. exists n. split; [by right|done].
      * intros [Hx|(n & Hn & Hc & Hx)]; [left; set_solver|].
        apply elem_of_cons in Hn as [->|Hn].
        -- left. set_solver.
        -- right. by exists n.
    + rewrite get_neighbors_absent by done. simpl.
      destruct (IH (acc ∪ ∅)) as (s & -> & Hs).
      exists s. split; [done|]. intros x. rewrite Hs. split.
      * intros [Hx|(n & Hn & Hc & Hx)]; [left; set_solver|].
        right. exists n. split; [by right|done].
      * intros [Hx|(n & Hn & Hc & Hx)]; [left; set_solver|].
        apply elem_of_cons in Hn as [->|Hn]; [congruence|].
        right. by exists n.
Qed.

Lemma extend_with_neighbors_spec (f : DiagramFilter.t) (selected : gset string) :
  ∃ s,
    DiagramFilter.extend_with_neighbors f selected = Return s
    ∧ ∀ x, x ∈ s ↔
        x ∈ selected
        ∨ ∃ n, n ∈ selected
               ∧ nx.contains f.(DiagramFilter.builder).(GraphBuilder.graph) n
                 = true
               ∧ (x ∈ nx.pred_set
                        f.(DiagramFilter.builder).(GraphBuilder.graph) n
                  ∨ x ∈ nx.succ_set
                          f.(DiagramFilter.builder).(GraphBuilder.graph) n).
Proof.
  unfold DiagramFilter.extend_with_neighbors.
  destruct (extend_loop f.(DiagramFilter.builder) selected
              (elements selected)) as (s & Hs & Hx).
  exists s. split; [done|]. intros x. rewrite Hx.
  by setoid_rewrite elem_of_elements.
Qed.

(** C9: a direction other than "in" and "out", whatever the string, is
    treated as "both": Neighbors returns what it returns for "both", which
    for a node of the graph is the union of its predecessors and its
    successors; Neighbors returns a set (does not raise) for every direction
    at all; bounded-hop traversal and the context view, which pass their
    direction on, return what they return for "both"; and the neighbour
    expansion of the hotspot and importance views, which calls Neighbors
    with its default direction, adds the predecessors and the successors of
    every selected node. *)
Theorem direction_fallback self direction :
  direction ≠ "in" → direction ≠ "out" →
  (∀ n, GraphBuilder.get_neighbors self n direction
        = GraphBuilder.get_neighbors self n "both")
  ∧ (∀ n, nx.contains self.(GraphBuilder.graph) n = true →
          GraphBuilder.get_neighbors self n direction
          = Return (nx.pred_set self.(GraphBuilder.graph) n
                    ∪ nx.succ_set self.(GraphBuilder.graph) n))
  ∧ (∀ n d, ∃ s, GraphBuilder.get_neighbors self n d = Return s)
  ∧ (∀ center max_hops,
       GraphBuilder.get_nodes_within_hops self center max_hops direction
       = GraphBuilder.get_nodes_within_hops self center max_hops "both")
  ∧ (∀ (f : DiagramFilter.t) name max_hops view_name,
       f.(DiagramFilter.builder) = self →
       DiagramFilter.create_context_view name max_hops direction view_name f
       = DiagramFilter.create_context_view name max_hops "both" view_name f)
  ∧ (∀ (f : DiagramFilter.t) selected,
       f.(DiagramFilter.builder) = self →
       ∃ s, DiagramFilter.extend_with_neighbors f selected = Return s
            ∧ ∀ x, x ∈ s ↔
                x ∈ selected
                ∨ ∃ n, n ∈ selected
                       ∧ nx.contains self.(GraphBuilder.graph) n = true
                       ∧ (x ∈ nx.pred_set self.(GraphBuilder.graph) n
                          ∨ x ∈ nx.succ_set self.(GraphBuilder.graph) n)).
Proof.
  intros Hi Ho. repeat split.
  - intros n. by apply get_neighbors_fallback.
  - intros n Hn. rewrite get_neighbors_present by done. by repeat case_decide.
  - intros n d. apply get_neighbors_returns.
  - intros center max_hops. unfold GraphBuilder.get_nodes_within_hops.
    destruct (negb _); [done|]. by apply hops_loop_fallback.
  - intros f name max_hops view_name <-.
    unfold DiagramFilter.create_context_view.
    unfold mbind, method_mbind, m_bind, m_get. simpl.
    destruct (DiagramFilter._find_node_id_by_name f name) as [[|c s]|];
      try done.
    unfold GraphBuilder.get_nodes_within_hops.
    destruct (negb _); [done|]. by rewrite hops_loop_fallback.
  - intros f selected <-. apply extend_with_neighbors_spec.
Qed.

End Traversal.

(** * Graph construction *)

Section Construction.
Implicit Types (g : nx.DiGraph) (r : Relationship) (d : DiagramData).

Lemma ensure_node_present g n : nx.contains g n = true → nx.ensure_node g n = g.
Proof. intros Hn. unfold nx.ensure_node. by rewrite Hn. Qed.

Lemma update_edge_attrs_kwargs old r w :
  nx.update_edge_attrs old (GraphBuilder.edge_kwargs r w)
  = GraphBuilder.edge_kwargs r w.
Proof. by destruct old as [[?|] [?|] [?|] [?|] [?|]]. Qed.

(** What one round of the relationship loop does. *)
Lemma add_relationship_kept g r :
  nx.contains g r.(parser.rel_source) = true →
  nx.contains g r.(parser.rel_destination) = true →
  GraphBuilder.add_relationship g r =
    {| nx.node_order := g.(nx.node_order);
       nx.node_attrs := g.(nx.node_attrs);
       nx.edges :=
         <[ends r := GraphBuilder.edge_kwargs r
                       (GraphBuilder._get_relationship_weight
                          r.(parser.rel_type))]> g.(nx.edges) |}.
Proof.
  intros Hs Hd. unfold GraphBuilder.add_relationship. rewrite Hs, Hd. simpl.
  unfold nx.add_edge. rewrite (ensure_node_present g _ Hs).
  rewrite (ensure_node_present g _ Hd). by rewrite update_edge_attrs_kwargs.
Qed.

Lemma add_relationship_dropped g r :
  nx.contains g r.(parser.rel_source) = false
  ∨ nx.contains g r.(parser.rel_destination) = false →
  GraphBuilder.add_relationship g r = g.
Proof.
  intros [Hc|Hc]; unfold GraphBuilder.add_relationship; rewrite Hc;
    [done|by rewrite andb_false_r].
Qed.

Lemma add_relationship_nodes g r :
  (GraphBuilder.add_relationship g r).(nx.node_attrs) = g.(nx.node_attrs)
  ∧ (GraphBuilder.add_relationship g r).(nx.node_order) = g.(nx.node_order).
Proof.
  destruct (nx.contains g r.(parser.rel_source)) eqn:Hs;
    [destruct (nx.contains g r.(parser.rel_destination)) eqn:Hd|].
  - by rewrite add_relationship_kept.
  - rewrite add_relationship_dropped; auto.
  - rewrite add_relationship_dropped; auto.
Qed.

Lemma relationships_nodes rels g :
  (foldl GraphBuilder.add_relationship g rels).(nx.node_attrs)
    = g.(nx.node_attrs)
  ∧ (foldl GraphBuilder.add_relationship g rels).(nx.node_order)
    = g.(nx.node_order).
Proof.
  revert g. induction rels as [|r rels IH]; intros g; simpl; [done|].
  destruct (IH (GraphBuilder.add_relationship g r)) as [-> ->].
  apply add_relationship_nodes.
Qed.

Lemma contains_add_relationship g r n :
  nx.contains (GraphBuilder.add_relationship g r) n = nx.contains g n.
Proof.
  unfold nx.contains. by rewrite (proj1 (add_relationship_nodes g r)).
Qed.

(** The edges after the relationship loop: those before it, and the end
    points of every relationship between two nodes. *)
Lemma relationships_edges_dom rels g (p : string * string) :
  p ∈ dom (foldl GraphBuilder.add_relationship g rels).(nx.edges) ↔
    p ∈ dom g.(nx.edges)
    ∨ (p ∈ ends <$> rels ∧ p.1 ∈ dom g.(nx.node_attrs)
       ∧ p.2 ∈ dom g.(nx.node_attrs)).
Proof.
  revert g. induction rels as [|r rels IH]; intros g; simpl.
  - split; [by left|]. intros [?|[Hp _]]; [done|]. by apply elem_of_nil in Hp.
  - rewrite IH. rewrite (proj1 (add_relationship_nodes g r)).
    destruct (nx.contains g r.(parser.rel_source)) eqn:Hs;
      [destruct (nx.contains g r.(parser.rel_destination)) eqn:Hd|].
    + rewrite add_relationship_kept by done. simpl. rewrite dom_insert.
      apply contains_true in Hs, Hd. rewrite elem_of_cons. set_solver.
    + rewrite add_relationship_dropped by auto.
      apply contains_false in Hd. rewrite elem_of_cons.
      split; [naive_solver|]. intros [?|[[->|?] [? ?]]]; naive_solver.
    + rewrite add_relationship_dropped by auto.
      apply contains_false in Hs. rewrite elem_of_cons.
      split; [naive_solver|]. intros [?|[[->|?] [? ?]]]; naive_solver.
Qed.

Lemma add_element_dom g item :
  dom (GraphBuilder.add_element g item).(nx.node_attrs)
  = {[item.1]} ∪ dom g.(nx.node_attrs)
  ∧ (GraphBuilder.add_element g item).(nx.edges) = g.(nx.edges).
Proof.
  unfold GraphBuilder.add_element, nx.add_node.
  destruct (g.(nx.node_attrs) !! item.1); simpl; by rewrite dom_insert_L.
Qed.

Lemma elements_dom elems g :
  dom (foldl GraphBuilder.add_element g elems).(nx.node_attrs)
  = list_to_set elems.*1 ∪ dom g.(nx.node_attrs)
  ∧ (foldl GraphBuilder.add_element g elems).(nx.edges) = g.(nx.edges).
Proof.
  revert g. induction elems as [|e elems IH]; intros g; simpl.
  - split; [set_solver|done].
  - destruct (IH (GraphBuilder.add_element g e)) as [-> ->].
    destruct (add_element_dom g e) as [-> ->]. split; [set_solver|done].
Qed.

(** The nodes of the built graph are the registered element ids. *)
Lemma build_nodes d :
  dom (GraphBuilder._build_graph d nx.empty).(nx.node_attrs)
  = list_to_set d.(parser.elements).*1.
Proof.
  unfold GraphBuilder._build_graph.
  rewrite (proj1 (relationships_nodes _ _)).
  rewrite (proj1 (elements_dom _ _)). simpl. set_solver.
Qed.

(** Its edges run between registered ids only, one per pair of end points
    of a relationship. *)
Lemma build_edges d (p : string * string) :
  p ∈ dom (GraphBuilder._build_graph d nx.empty).(nx.edges) ↔
    p ∈ ends <$> d.(parser.relationships)
    ∧ p.1 ∈ d.(parser.elements).*1 ∧ p.2 ∈ d.(parser.elements).*1.
Proof.
  unfold GraphBuilder._build_graph. rewrite relationships_edges_dom.
  rewrite (proj2 (elements_dom _ _)), (proj1 (elements_dom _ _)). simpl.
  rewrite dom_empty. set_solver.
Qed.

Lemma build_drops_dangling rels1 rels2 r g :
  r.(parser.rel_source) ∉ dom g.(nx.node_attrs)
  ∨ r.(parser.rel_destination) ∉ dom g.(nx.node_attrs) →
  foldl GraphBuilder.add_relationship g (rels1 ++ r :: rels2)
  = foldl GraphBuilder.add_relationship g (rels1 ++ rels2).
Proof.
  intros Hd. rewrite !foldl_app. simpl. f_equal.
  apply add_relationship_dropped.
  unfold nx.contains. rewrite (proj1 (relationships_nodes rels1 g)).
  rewrite !bool_decide_eq_false. done.
Qed.

(** C4: with a relationship whose source or destination id is not
    registered as an element, construction yields the graph it yields
    without that relationship (the same nodes, which are the registered ids,
    and the same edges); the edge of that relationship is not in the graph;
    and the graph has at most as many edges as the graph built from the same
    relationships with further elements registered, the missing end point
    among them or not. *)
Theorem dangling_relationship_dropped
    (elems : list (string * ClassElement)) (rels1 rels2 : list Relationship)
    (r : Relationship) :
  r.(parser.rel_source) ∉ (elems.*1)
  ∨ r.(parser.rel_destination) ∉ (elems.*1) →
  let built :=
    GraphBuilder._build_graph
      {| parser.elements := elems;
         parser.relationships := rels1 ++ r :: rels2 |} nx.empty in
  let without :=
    GraphBuilder._build_graph
      {| parser.elements := elems;
         parser.relationships := rels1 ++ rels2 |} nx.empty in
  built = without
  ∧ dom built.(nx.node_attrs) = list_to_set (elems.*1)
  ∧ (ends r ∉ dom built.(nx.edges))
  ∧ ∀ extra : list (string * ClassElement),
      (nx.number_of_edges built
       ≤ nx.number_of_edges
           (GraphBuilder._build_graph
              {| parser.elements := elems ++ extra;
                 parser.relationships := rels1 ++ r :: rels2 |} nx.empty))%nat.
Proof.
  intros Hd built without. repeat split.
  - unfold built, without, GraphBuilder._build_graph. simpl.
    apply build_drops_dangling.
    rewrite (proj1 (elements_dom _ _)). simpl.
    rewrite dom_empty_L. set_solver.
  - apply build_nodes.
  - unfold built. rewrite build_edges. simpl. intros (_ & Hs & Hdst).
    by destruct Hd.
  - intros extra. unfold nx.number_of_edges.
    rewrite <- (size_dom (D:=gset (string * string)) built.(nx.edges)).
    rewrite <- (size_dom (D:=gset (string * string))
                  (nx.edges (GraphBuilder._build_graph _ _))).
    apply subseteq_size. intros p. unfold built. rewrite !build_edges. simpl.
    rewrite !fmap_app, !elem_of_app. tauto.
Qed.

(** The attributes of every edge are the keyword arguments written by the
    last relationship between its end points. *)
Lemma relationships_edge_attrs rels g (p : string * string) attrs :
  (foldl GraphBuilder.add_relationship g rels).(nx.edges) !! p = Some attrs →
  g.(nx.edges) !! p = Some attrs
  ∨ ∃ r, r ∈ rels ∧ ends r = p
         ∧ attrs = GraphBuilder.edge_kwargs r
                     (GraphBuilder._get_relationship_weight
                        r.(parser.rel_type)).
Proof.
  revert g. induction rels as [|r rels IH]; intros g; simpl; [by left|].
  intros Hl. apply IH in Hl as [Hl|(r' & Hr' & He & Ha)].
  - destruct (nx.contains g r.(parser.rel_source)) eqn:Hs;
      [destruct (nx.contains g r.(parser.rel_destination)) eqn:Hd|].
    + rewrite add_relationship_kept in Hl by done. simpl in Hl.
      destruct (decide (ends r = p)) as [<-|Hne].
      * rewrite lookup_insert_eq in Hl. injection Hl as <-.
        right. exists r. split; [left|done].
      * rewrite lookup_insert_ne in Hl by done. by left.
    + rewrite add_relationship_dropped in Hl by auto. by left.
    + rewrite add_relationship_dropped in Hl by auto. by left.
  - right. exists r'. split; [by right|done].
Qed.

(** C5: every edge of the built graph carries the kind of a relationship
    between its end points and the weight the table gives for that kind:
    2.0 for extension, 1.8 for composition, 1.5 for aggregation, 1.2 for
    association, 0.8 for dependency, and 1.0 for every other kind. *)
Theorem edge_weight_from_kind :
  (∀ (d : DiagramData) (p : string * string) attrs,
     (GraphBuilder._build_graph d nx.empty).(nx.edges) !! p = Some attrs →
     ∃ r, r ∈ d.(parser.relationships) ∧ ends r = p
          ∧ attrs.(nx.e_type) = Some r.(parser.rel_type)
          ∧ attrs.(nx.weight)
            = Some (GraphBuilder._get_relationship_weight r.(parser.rel_type)))
  ∧ GraphBuilder._get_relationship_weight "extension" = Q2Qc 2.0
  ∧ GraphBuilder._get_relationship_weight "composition" = Q2Qc 1.8
  ∧ GraphBuilder._get_relationship_weight "aggregation" = Q2Qc 1.5
  ∧ GraphBuilder._get_relationship_weight "association" = Q2Qc 1.2
  ∧ GraphBuilder._get_relationship_weight "dependency" = Q2Qc 0.8
  ∧ (∀ kind, kind ∉ ["extension"; "composition"; "aggregation";
                      "association"; "dependency"] →
             GraphBuilder._get_relationship_weight kind = Q2Qc 1.0).
Proof.
  split; [|repeat split; try reflexivity].
  - intros d p attrs Hl. unfold GraphBuilder._build_graph in Hl.
    apply relationships_edge_attrs in Hl as [Hl|(r & Hr & He & ->)].
    + rewrite (proj2 (elements_dom _ _)) in Hl. by simpl in Hl.
    + by exists r.
  - intros kind Hk. unfold GraphBuilder._get_relationship_weight.
    replace (GraphBuilder.weights !! kind) with (@None Qc); [done|].
    symmetry. unfold GraphBuilder.weights. apply not_elem_of_list_to_map.
    simpl. set_solver.
Qed.

(** Construction keeps the invariant of the graph library. *)
Lemma wf_empty : nx.wf nx.empty.
Proof.
  split; simpl.
  - constructor.
  - intros n. rewrite dom_empty. set_solver.
  - intros u v. rewrite dom_empty. set_solver.
Qed.

Lemma add_node_wf g n attrs : nx.wf g → nx.wf (nx.add_node g n attrs).
Proof.
  intros [Hnd Hord Hed]. unfold nx.add_node.
  destruct (g.(nx.node_attrs) !! n) as [old|] eqn:En; split; simpl.
  - done.
  - intros x. rewrite dom_insert, Hord.
    assert (n ∈ dom g.(nx.node_attrs)) by (apply elem_of_dom; eauto).
    set_solver.
  - intros u v Huv. rewrite !dom_insert. destruct (Hed u v Huv). set_solver.
  - apply NoDup_app. split; [done|]. split; [|apply NoDup_singleton].
    intros x Hx Hx'. apply list_elem_of_singleton in Hx' as ->.
    apply Hord in Hx. apply elem_of_dom in Hx as [? ?]. congruence.
  - intros x. rewrite dom_insert, elem_of_app, list_elem_of_singleton, Hord.
    set_solver.
  - intros u v Huv. rewrite !dom_insert. destruct (Hed u v Huv). set_solver.
Qed.

Lemma add_relationship_wf g r :
  nx.wf g → nx.wf (GraphBuilder.add_relationship g r).
Proof.
  intros Hwf.
  destruct (nx.contains g r.(parser.rel_source)) eqn:Hs;
    [destruct (nx.contains g r.(parser.rel_destination)) eqn:Hd|].
  - rewrite add_relationship_kept by done. destruct Hwf as [Hnd Hord Hed].
    split; simpl; [done..|]. intros u v. rewrite dom_insert.
    apply contains_true in Hs, Hd.
    intros [Heq%elem_of_singleton|Huv]%elem_of_union; [|by apply Hed].
    unfold ends in Heq. by injection Heq as -> ->.
  - by rewrite add_relationship_dropped by auto.
  - by rewrite add_relationship_dropped by auto.
Qed.

Lemma build_wf d : nx.wf (GraphBuilder._build_graph d nx.empty).
Proof.
  unfold GraphBuilder._build_graph.
  assert (∀ rels g, nx.wf g →
            nx.wf (foldl GraphBuilder.add_relationship g rels)) as Hrels.
  { induction rels as [|r rels IH]; intros g Hg; simpl; [done|].
    apply IH. by apply add_relationship_wf. }
  assert (∀ elems g, nx.wf g →
            nx.wf (foldl GraphBuilder.add_element g elems)) as Helems.
  { induction elems as [|e elems IH]; intros g Hg; simpl; [done|].
    apply IH. by apply add_node_wf. }
  apply Hrels, Helems, wf_empty.
Qed.

End Construction.

(** * Namespace coupling *)

Section NamespaceCoupling.
Context `{Libraries}.
Implicit Types (g : nx.DiGraph) (m : gmap string GraphAnalyzer.ns_stats).
Implicit Types (ns : string) (e : string * string).

Lemma ratio_bounds (a b : nat) :
  (0 < b)%nat → (a ≤ b)%nat → (0 ≤ Spec.ratio a b)%Qc ∧ (Spec.ratio a b ≤ 1)%Qc.
Proof.
  intros Hb Hab. unfold Spec.ratio, Qcdiv.
  assert (0 ≤ Qc_of_Z (Z.of_nat a))%Qc as Ha.
  { rewrite <- Z2Qc_inj_0. apply (proj1 (Z2Qc_inj_le _ _)). lia. }
  assert (0 < Qc_of_Z (Z.of_nat b))%Qc as Hb'.
  { rewrite <- Z2Qc_inj_0. apply (proj1 (Z2Qc_inj_lt _ _)). lia. }
  assert (0 ≤ / Qc_of_Z (Z.of_nat b))%Qc as Hi.
  { apply Qclt_le_weak. by apply Qcinv_pos. }
  split.
  - by apply Qcmult_nonneg_nonneg.
  - rewrite <- (Qcmult_inv_r (Qc_of_Z (Z.of_nat b))).
    + apply Qcmult_le_compat_r; [|done]. apply (proj1 (Z2Qc_inj_le _ _)). lia.
    + intros Heq. rewrite Heq in Hb'. by apply Qclt_not_eq in Hb'.
Qed.

(** Counting over the list of edges and over the set of edges. *)
Lemma count_edges {A} (em : gmap (string * string) A)
    (P : string * string → Prop) `{!∀ e, Decision (P e)} :
  length (filter P (map_to_list em).*1) = size (filter P (dom em)).
Proof.
  unfold size, set_size. simpl. apply Permutation_length.
  apply NoDup_Permutation.
  - apply NoDup_filter, NoDup_fst_map_to_list.
  - apply NoDup_elements.
  - intros e. rewrite elem_of_elements, elem_of_filter, list_elem_of_filter.
    rewrite elem_of_dom, list_elem_of_fmap. split.
    + intros [HP ([e' a] & -> & Hin)]. split; [done|].
      apply elem_of_map_to_list in Hin. by exists a.
    + intros [HP [a Ha]]. split; [done|]. exists (e, a). split; [done|].
      by apply elem_of_map_to_list.
Qed.

(** The defaultdict after one of the three increments. *)
Lemma stats_of_insert m ns ns' (v : GraphAnalyzer.ns_stats) :
  GraphAnalyzer.stats_of (<[ns' := v]> m) ns
  = if decide (ns' = ns) then v else GraphAnalyzer.stats_of m ns.
Proof.
  unfold GraphAnalyzer.stats_of. rewrite lookup_insert.
  by case_decide.
Qed.

Lemma namespace_of_node g n :
  n ∈ dom g.(nx.node_attrs) →
  GraphAnalyzer.namespace_of g n = Return (Spec.node_namespace g n).
Proof.
  intros [a Ha]%elem_of_dom.
  unfold GraphAnalyzer.namespace_of, nx.nodes_getitem, Spec.node_namespace.
  by rewrite Ha.
Qed.

Lemma edge_loop g (l : list (string * string)) m :
  (∀ e, e ∈ l → e.1 ∈ dom g.(nx.node_attrs) ∧ e.2 ∈ dom g.(nx.node_attrs)) →
  ∃ m', for_each (GraphAnalyzer.add_ns_edge g) m l = Return m'
        ∧ (∀ ns, advanced g l m m' ns)
        ∧ (∀ ns, is_Some (m' !! ns) ↔
                 is_Some (m !! ns)
                 ∨ ∃ e, e ∈ l ∧ (Spec.node_namespace g e.1 = ns
                                 ∨ Spec.node_namespace g e.2 = ns)).
Proof.
  revert m. induction l as [|e l IH]; intros m Hl.
  - exists m. split; [done|]. split.
    + intros ns. unfold advanced. simpl. by rewrite !Nat.add_0_r.
    + intros ns. split; [by left|]. intros [?|(e & He & _)]; [done|].
      by apply elem_of_nil in He.
  - destruct (Hl e) as [Hs Ht]; [left|].
    simpl. unfold GraphAnalyzer.add_ns_edge at 1.
    rewrite (namespace_of_node g _ Hs), (namespace_of_node g _ Ht). simpl.
    remember (Spec.node_namespace g e.1) as sn eqn:Esn.
    remember (Spec.node_namespace g e.2) as tn eqn:Etn.
    destruct (decide (sn = tn)) as [Heq|Hne]; simpl.
    + destruct (IH (GraphAnalyzer.incr_internal sn m)) as (m' & -> & Hadv & Hdom).
      { intros e' He'. apply Hl. by right. }
      exists m'. split; [done|]. split.
      * intros ns. destruct (Hadv ns) as (Hn & Hi & Ho & Hin).
        unfold GraphAnalyzer.incr_internal in Hn, Hi, Ho, Hin.
        rewrite stats_of_insert in Hn, Hi, Ho, Hin.
        unfold advanced. rewrite !filter_cons. rewrite <- ?Esn, <- ?Etn.
        rewrite Hn, Hi, Ho, Hin. clear Hn Hi Ho Hin Hadv Hdom IH Hl.
        subst tn.
        repeat case_decide; subst; simpl; repeat split; try lia;
          exfalso; naive_solver.
      * intros ns. rewrite Hdom. unfold GraphAnalyzer.incr_internal.
        rewrite lookup_insert_is_Some. setoid_rewrite elem_of_cons. split.
        -- intros [[Hsn|[_ ?]]|(e' & He' & Hns)]; [right|by left|right].
           ++ exists e. split; [by left|left; congruence].
           ++ exists e'. split; [by right|done].
        -- intros [?|(e' & [He'|He'] & Hns)].
           ++ left. destruct (decide (sn = ns)); [by left|by right].
           ++ left. left. subst e'. destruct Hns; congruence.
           ++ right. by exists e'.
    + destruct (IH (GraphAnalyzer.incr_external_in tn
                      (GraphAnalyzer.incr_external_out sn m)))
        as (m' & -> & Hadv & Hdom).
      { intros e' He'. apply Hl. by right. }
      exists m'. split; [done|]. split.
      * intros ns. destruct (Hadv ns) as (Hn & Hi & Ho & Hin).
        unfold GraphAnalyzer.incr_external_in, GraphAnalyzer.incr_external_out
          in Hn, Hi, Ho, Hin.
        rewrite !stats_of_insert in Hn, Hi, Ho, Hin.
        unfold advanced. rewrite !filter_cons. rewrite <- ?Esn, <- ?Etn.
        rewrite Hn, Hi, Ho, Hin. clear Hn Hi Ho Hin Hadv Hdom IH Hl.
        repeat case_decide; subst; simpl; repeat split; try lia;
          exfalso; naive_solver.
      * intros ns. rewrite Hdom.
        unfold GraphAnalyzer.incr_external_in, GraphAnalyzer.incr_external_out.
        rewrite !lookup_insert_is_Some. setoid_rewrite elem_of_cons. split.
        -- intros [[Htn|[_ [Hsn|[_ ?]]]]|(e' & He' & Hns)].
           ++ right. exists e. split; [by left|right; congruence].
           ++ right. exists e. split; [by left|left; congruence].
           ++ by left.
           ++ right. exists e'. split; [by right|done].
        -- intros [?|(e' & [He'|He'] & Hns)].
           ++ left. destruct (decide (tn = ns)); [by left|right].
              split; [done|]. destruct (decide (sn = ns)); [by left|by right].
           ++ left. subst e'.
              destruct (decide (tn = ns)); [by left|right].
              split; [done|]. left. destruct Hns; congruence.
           ++ right. by exists e'.
Qed.

Lemma elem_of_nodes_data g (item : string * nx.NodeAttrs) :
  item ∈ nx.nodes_data g ↔
    item.1 ∈ g.(nx.node_order) ∧ g.(nx.node_attrs) !! item.1 = Some item.2.
Proof.
  unfold nx.nodes_data. rewrite list_elem_of_omap. split.
  - intros (n & Hn & Hi). destruct (g.(nx.node_attrs) !! n) as [a|] eqn:Ea;
      simpl in Hi; [|done]. injection Hi as <-. by simpl.
  - intros [Hn Ha]. exists item.1. split; [done|]. rewrite Ha. simpl.
    by destruct item.
Qed.

Lemma stats_of_add_ns_node m (n : string) (a : nx.NodeAttrs) ns :
  GraphAnalyzer.stats_of (GraphAnalyzer.add_ns_node m (n, a)) ns
  = if decide (default "" a.(nx.namespace) = ns) then
      {| GraphAnalyzer.nodes :=
           (GraphAnalyzer.stats_of m ns).(GraphAnalyzer.nodes) ∪ {[n]};
         GraphAnalyzer.internal_edges :=
           (GraphAnalyzer.stats_of m ns).(GraphAnalyzer.internal_edges);
         GraphAnalyzer.external_edges_out :=
           (GraphAnalyzer.stats_of m ns).(GraphAnalyzer.external_edges_out);
         GraphAnalyzer.external_edges_in :=
           (GraphAnalyzer.stats_of m ns).(GraphAnalyzer.external_edges_in) |}
    else GraphAnalyzer.stats_of m ns.
Proof.
  unfold GraphAnalyzer.add_ns_node. rewrite stats_of_insert. simpl.
  case_decide as Hc; [|done]. by rewrite Hc.
Qed.

Lemma is_Some_add_ns_node m (n : string) (a : nx.NodeAttrs) ns :
  is_Some (GraphAnalyzer.add_ns_node m (n, a) !! ns) ↔
    default "" a.(nx.namespace) = ns ∨ is_Some (m !! ns).
Proof.
  unfold GraphAnalyzer.add_ns_node. rewrite lookup_insert_is_Some. simpl.
  destruct (decide (default "" (nx.namespace a) = ns)); naive_solver.
Qed.

(** The statistics of [ns] after the node loop has gone through [l]. *)
Lemma node_loop (l : list (string * nx.NodeAttrs)) m ns :
  let m' := foldl GraphAnalyzer.add_ns_node m l in
  (∀ n, n ∈ (GraphAnalyzer.stats_of m' ns).(GraphAnalyzer.nodes) ↔
        n ∈ (GraphAnalyzer.stats_of m ns).(GraphAnalyzer.nodes)
        ∨ ∃ a, (n, a) ∈ l ∧ default "" a.(nx.namespace) = ns)
  ∧ (GraphAnalyzer.stats_of m' ns).(GraphAnalyzer.internal_edges)
    = (GraphAnalyzer.stats_of m ns).(GraphAnalyzer.internal_edges)
  ∧ (GraphAnalyzer.stats_of m' ns).(GraphAnalyzer.external_edges_out)
    = (GraphAnalyzer.stats_of m ns).(GraphAnalyzer.external_edges_out)
  ∧ (GraphAnalyzer.stats_of m' ns).(GraphAnalyzer.external_edges_in)
    = (GraphAnalyzer.stats_of m ns).(GraphAnalyzer.external_edges_in)
  ∧ (is_Some (m' !! ns) ↔
     is_Some (m !! ns)
     ∨ ∃ item, item ∈ l ∧ default "" item.2.(nx.namespace) = ns).
Proof.
  revert m. induction l as [|[n0 a0] l IH]; intros m; cbn [foldl].
  - repeat split; try done; try (by left).
    + intros [?|(a & Ha & _)]; [done|]. by apply elem_of_nil in Ha.
    + intros [?|(a & Ha & _)]; [done|]. by apply elem_of_nil in Ha.
  - destruct (IH (GraphAnalyzer.add_ns_node m (n0, a0)))
      as (Hn & Hi & Ho & Hin & Hd).
    rewrite stats_of_add_ns_node in Hi, Ho, Hin.
    setoid_rewrite stats_of_add_ns_node in Hn.
    rewrite is_Some_add_ns_node in Hd.
    repeat split.
    + intros Hx. apply Hn in Hx as [Hx|(a & Ha & Hns)].
      * case_decide as Hc; simpl in Hx; [|by left].
        apply elem_of_union in Hx as [Hx|Hx]; [by left|].
        apply elem_of_singleton in Hx as ->. right. exists a0.
        split; [left|done].
      * right. exists a. split; [by right|done].
    + intros [Hx|(a & Ha & Hns)]; apply Hn.
      * left. case_decide as Hc; simpl; [|done].
        apply elem_of_union. by left.
      * apply elem_of_cons in Ha as [Ha|Ha].
        -- injection Ha as -> ->. left. rewrite decide_True by done. simpl.
           set_solver.
        -- right. by exists a.
    + rewrite Hi. by case_decide.
    + rewrite Ho. by case_decide.
    + rewrite Hin. by case_decide.
    + intros Hx. apply Hd in Hx as [[Hx|Hx]|(item & Hit & Hns)].
      * right. exists (n0, a0). split; [left|done].
      * by left.
      * right. exists item. split; [by right|done].
    + intros [Hx|(item & Hit & Hns)]; apply Hd.
      * left. by right.
      * apply elem_of_cons in Hit as [->|Hit]; [left; by left|].
        right. by exists item.
Qed.

Lemma length_filter_or {A} (P Q : A → Prop) `{!∀ x, Decision (P x)}
    `{!∀ x, Decision (Q x)} (l : list A) :
  (∀ x, P x → Q x → False) →
  (length (filter P l) + length (filter Q l))%nat
  = length (filter (λ x, P x ∨ Q x) l).
Proof.
  intros Hdisj. induction l as [|x l IH]; [done|].
  rewrite !filter_cons.
  destruct (decide (P x)) as [HP|HP]; destruct (decide (Q x)) as [HQ|HQ].
  - by destruct (Hdisj x).
  - rewrite decide_True by auto. simpl. lia.
  - rewrite decide_True by auto. simpl. lia.
  - rewrite decide_False by tauto. done.
Qed.

(** C6: on a graph whose edges run between its nodes, NamespaceCoupling
    returns one entry per namespace of the graph, and the entry of a
    namespace holds the number of its nodes, the number of edges with both
    end points in it (internal), the number of edges crossing its boundary
    in either direction (external), cohesion = internal / (internal +
    external), 0 without such edges and in [0, 1] always, and coupling =
    external / node count, 0 without nodes. *)
Theorem namespace_coupling_report (self : GraphAnalyzer.t) :
  nx.wf self.(GraphAnalyzer.graph) →
  ∃ report,
    GraphAnalyzer.analyze_namespace_coupling self = Return report
    ∧ dom report = Spec.namespaces self.(GraphAnalyzer.graph)
    ∧ ∀ ns rep, report !! ns = Some rep →
        let internal :=
          size (Spec.internal_edges self.(GraphAnalyzer.graph) ns) in
        let external :=
          size (Spec.external_edges self.(GraphAnalyzer.graph) ns) in
        let node_count :=
          size (Spec.namespace_nodes self.(GraphAnalyzer.graph) ns) in
        rep.(GraphAnalyzer.node_count) = node_count
        ∧ rep.(GraphAnalyzer.r_internal_edges) = internal
        ∧ rep.(GraphAnalyzer.external_edges) = external
        ∧ rep.(GraphAnalyzer.cohesion)
          = (if decide (internal + external = 0)%nat then 0%Qc
             else Spec.ratio internal (internal + external))
        ∧ (0 ≤ rep.(GraphAnalyzer.cohesion))%Qc
        ∧ (rep.(GraphAnalyzer.cohesion) ≤ 1)%Qc
        ∧ rep.(GraphAnalyzer.coupling)
          = (if decide (node_count = 0)%nat then 0%Qc
             else Spec.ratio external node_count).
Proof.
  intros [Hnd Hord Hedges]. unfold GraphAnalyzer.analyze_namespace_coupling.
  set (g := self.(GraphAnalyzer.graph)) in *.
  set (m0 := foldl GraphAnalyzer.add_ns_node ∅ (nx.nodes_data g)).
  destruct (edge_loop g (map_to_list g.(nx.edges)).*1 m0) as (m' & -> & Hadv & Hdom).
  { intros [u v] He. apply Hedges. apply elem_of_dom.
    apply list_elem_of_fmap in He as ([e a] & Heq & Hin).
    simpl in Heq. subst e.
    apply elem_of_map_to_list in Hin. by exists a. }
  cbn [result_bind]. eexists. split; [done|].
  assert (∀ ns, is_Some (m0 !! ns) ↔ ns ∈ Spec.namespaces g) as Hm0.
  { intros ns. destruct (node_loop (nx.nodes_data g) ∅ ns) as (_ & _ & _ & _ & Hd).
    fold m0 in Hd. rewrite Hd, lookup_empty. unfold Spec.namespaces.
    rewrite elem_of_map. split.
    - intros [[? ?]|([n a] & Hit & Hns)]; [done|].
      apply elem_of_nodes_data in Hit as [Ho Ha]. simpl in *.
      exists n. split; [|by apply elem_of_dom].
      unfold Spec.node_namespace. by rewrite Ha.
    - intros (n & -> & [a Ha]%elem_of_dom). right. exists (n, a). split.
      + apply elem_of_nodes_data. simpl. split; [|done].
        apply Hord. by apply elem_of_dom.
      + unfold Spec.node_namespace. by rewrite Ha. }
  assert (∀ ns, is_Some (m' !! ns) ↔ ns ∈ Spec.namespaces g) as Hm'.
  { intros ns. rewrite Hdom, Hm0. split; [|by left].
    intros [?|([u v] & He & Hns)]; [done|]. unfold Spec.namespaces.
    apply list_elem_of_fmap in He as ([e a] & Heq & Hin).
    simpl in Heq. subst e.
    apply elem_of_map_to_list in Hin. simpl in *.
    destruct (Hedges u v) as [Hu Hv].
    { apply elem_of_dom. by exists a. }
    apply elem_of_map. destruct Hns as [<-|<-]; eauto. }
  split.
  { apply set_eq. intros ns. rewrite elem_of_dom, lookup_fmap, fmap_is_Some.
    apply Hm'. }
  intros ns rep Hrep.
  set (internal := size (Spec.internal_edges g ns)).
  set (external := size (Spec.external_edges g ns)).
  set (node_count := size (Spec.namespace_nodes g ns)).
  rewrite lookup_fmap in Hrep.
  destruct (m' !! ns) as [st|] eqn:Est; simpl in Hrep; [|done].
  injection Hrep as <-.
  assert (GraphAnalyzer.stats_of m' ns = st) as Hst.
  { unfold GraphAnalyzer.stats_of. by rewrite Est. }
  destruct (Hadv ns) as (Hn & Hi & Ho & Hin). rewrite Hst in Hn, Hi, Ho, Hin.
  destruct (node_loop (nx.nodes_data g) ∅ ns) as (Hn0 & Hi0 & Ho0 & Hin0 & _).
  fold m0 in Hn0, Hi0, Ho0, Hin0.
  rewrite Hi0 in Hi. rewrite Ho0 in Ho. rewrite Hin0 in Hin.
  unfold GraphAnalyzer.stats_of in Hi, Ho, Hin. rewrite lookup_empty in Hi, Ho, Hin.
  simpl in Hi, Ho, Hin. rewrite count_edges in Hi.
  assert (st.(GraphAnalyzer.nodes) = Spec.namespace_nodes g ns) as Hnodes.
  { apply set_eq. intros n. rewrite Hn, Hn0.
    unfold GraphAnalyzer.stats_of at 1. rewrite lookup_empty. simpl.
    unfold Spec.namespace_nodes. rewrite elem_of_filter, elem_of_dom. split.
    - intros [?|(a & Hit & Hns)]; [set_solver|].
      apply elem_of_nodes_data in Hit as [Hon Ha]. simpl in *.
      split; [|by exists a]. unfold Spec.node_namespace. by rewrite Ha.
    - intros [Hns [a Ha]]. right. exists a. split.
      + apply elem_of_nodes_data. simpl. split; [|done].
        apply Hord. by apply elem_of_dom.
      + unfold Spec.node_namespace in Hns. by rewrite Ha in Hns. }
  assert ((st.(GraphAnalyzer.external_edges_out)
           + st.(GraphAnalyzer.external_edges_in))%nat = external) as Hext.
  { rewrite Ho, Hin. simpl. rewrite length_filter_or by naive_solver.
    unfold external, Spec.external_edges. by rewrite count_edges. }
  assert (st.(GraphAnalyzer.internal_edges) = internal) as Hint by exact Hi.
  unfold GraphAnalyzer.report_of. cbn [GraphAnalyzer.node_count
    GraphAnalyzer.r_internal_edges GraphAnalyzer.external_edges
    GraphAnalyzer.cohesion GraphAnalyzer.coupling].
  rewrite Hnodes, Hext, Hint. fold node_count. fold (Spec.ratio internal
    (internal + external)). fold (Spec.ratio external node_count).
  repeat split.
  - case_bool_decide; case_decide; try lia; done.
  - case_bool_decide; [|done]. apply ratio_bounds; lia.
  - case_bool_decide; [|done]. apply ratio_bounds; lia.
  - case_bool_decide; case_decide; try lia; done.
Qed.

End NamespaceCoupling.

(** * The caches of the analyzer *)

Section Caches.
Context `{Libraries}.
Implicit Types (self : GraphAnalyzer.t).

Lemma keeps_bind {A B} P (m : method GraphAnalyzer.t A)
    (k : A → method GraphAnalyzer.t B) :
  keeps P m → (∀ a, keeps P (k a)) → keeps P (m ≫= k).
Proof.
  intros Hm Hk self HP. unfold mbind, method_mbind, m_bind.
  specialize (Hm self HP). destruct (m self) as [[a|e] s']; simpl in *.
  - by apply Hk.
  - done.
Qed.

Lemma keeps_ret {A} P (a : A) : keeps P (mret a).
Proof. by intros self HP. Qed.
Lemma keeps_get P : keeps P m_get.
Proof. by intros self HP. Qed.
Lemma keeps_raise {A} P e : keeps P (m_raise (A:=A) e).
Proof. by intros self HP. Qed.
Lemma keeps_lift {A} P (r : result A) : keeps P (m_lift r).
Proof. by intros self HP. Qed.

Lemma calculate_pagerank_keeps_communities part alpha :
  keeps (communities_cached part) (GraphAnalyzer.calculate_pagerank alpha).
Proof.
  intros self HP. unfold GraphAnalyzer.calculate_pagerank.
  destruct (GraphAnalyzer._pagerank_cache self); [done|].
  by destruct (nx_pagerank _ _).
Qed.

Lemma calculate_pagerank_keeps_pagerank pr alpha :
  keeps (pagerank_cached pr) (GraphAnalyzer.calculate_pagerank alpha).
Proof.
  intros self HP. unfold GraphAnalyzer.calculate_pagerank.
  unfold pagerank_cached in HP. by rewrite HP.
Qed.

Lemma calculate_betweenness_keeps_communities part :
  keeps (communities_cached part) GraphAnalyzer.calculate_betweenness_centrality.
Proof.
  intros self HP. unfold GraphAnalyzer.calculate_betweenness_centrality.
  destruct (GraphAnalyzer._betweenness_cache self); [done|].
  by destruct (nx_betweenness_centrality _).
Qed.

Lemma calculate_betweenness_keeps_pagerank pr :
  keeps (pagerank_cached pr) GraphAnalyzer.calculate_betweenness_centrality.
Proof.
  intros self HP. unfold GraphAnalyzer.calculate_betweenness_centrality.
  destruct (GraphAnalyzer._betweenness_cache self); [done|].
  by destruct (nx_betweenness_centrality _).
Qed.

Lemma detect_communities_keeps_communities part resolution :
  keeps (communities_cached part) (GraphAnalyzer.detect_communities resolution).
Proof.
  intros self HP. unfold GraphAnalyzer.detect_communities.
  unfold communities_cached in HP. by rewrite HP.
Qed.

Lemma detect_communities_keeps_pagerank pr resolution :
  keeps (pagerank_cached pr) (GraphAnalyzer.detect_communities resolution).
Proof.
  intros self HP. unfold GraphAnalyzer.detect_communities.
  destruct (GraphAnalyzer._communities_cache self); [done|].
  by destruct (best_partition _ _).
Qed.

Lemma get_top_nodes_keeps P metric top_n :
  (∀ alpha, keeps P (GraphAnalyzer.calculate_pagerank alpha)) →
  keeps P GraphAnalyzer.calculate_betweenness_centrality →
  keeps P (GraphAnalyzer.get_top_nodes_by_metric metric top_n).
Proof.
  intros Hpr Hbc. unfold GraphAnalyzer.get_top_nodes_by_metric.
  apply keeps_bind; [|intros; apply keeps_ret].
  repeat case_decide; auto using keeps_raise;
    (apply keeps_bind; [apply keeps_get|intros; apply keeps_ret]).
Qed.

Lemma get_community_members_keeps P community_id :
  (∀ resolution, keeps P (GraphAnalyzer.detect_communities resolution)) →
  keeps P (GraphAnalyzer.get_community_members community_id).
Proof.
  intros Hdc. unfold GraphAnalyzer.get_community_members.
  apply keeps_bind; [done|]. intros. destruct community_id; apply keeps_ret.
Qed.

Lemma get_analysis_summary_keeps P :
  (∀ alpha, keeps P (GraphAnalyzer.calculate_pagerank alpha)) →
  keeps P GraphAnalyzer.calculate_betweenness_centrality →
  (∀ resolution, keeps P (GraphAnalyzer.detect_communities resolution)) →
  keeps P GraphAnalyzer.get_analysis_summary.
Proof.
  intros Hpr Hbc Hdc. unfold GraphAnalyzer.get_analysis_summary.
  pose proof (get_top_nodes_keeps P "pagerank" 5 Hpr Hbc) as Htop1.
  pose proof (get_top_nodes_keeps P "degree" 5 Hpr Hbc) as Htop2.
  repeat first [ exact Htop1 | exact Htop2 | done | apply keeps_ret
               | apply keeps_get | apply keeps_lift
               | apply keeps_bind; [|intros ?] ].
Qed.

Lemma after_call_keeps P self c :
  (∀ alpha, keeps P (GraphAnalyzer.calculate_pagerank alpha)) →
  keeps P GraphAnalyzer.calculate_betweenness_centrality →
  (∀ resolution, keeps P (GraphAnalyzer.detect_communities resolution)) →
  P self → P (after_call self c).
Proof.
  intros Hpr Hbc Hdc HP. destruct c; simpl; try done.
  - by apply Hpr.
  - by apply Hbc.
  - by apply get_top_nodes_keeps.
  - by apply Hdc.
  - by apply get_community_members_keeps.
  - by apply get_analysis_summary_keeps.
Qed.

Lemma after_calls_keeps P self calls :
  (∀ alpha, keeps P (GraphAnalyzer.calculate_pagerank alpha)) →
  keeps P GraphAnalyzer.calculate_betweenness_centrality →
  (∀ resolution, keeps P (GraphAnalyzer.detect_communities resolution)) →
  P self → P (after_calls self calls).
Proof.
  intros Hpr Hbc Hdc. revert self.
  induction calls as [|c calls IH]; intros self HP; simpl; [done|].
  apply IH. by apply after_call_keeps.
Qed.

(** C7: the call of Communities that finds the cache empty computes the
    partition of the undirected graph for its resolution and stores it;
    after any further calls on the instance, Communities returns that same
    mapping, whatever resolution it is given, and the cache still holds
    it. *)
Theorem communities_first_call_wins self resolution part :
  self.(GraphAnalyzer._communities_cache) = None →
  best_partition (to_undirected self.(GraphAnalyzer.graph)) resolution
    = Return part →
  (GraphAnalyzer.detect_communities resolution self).1 = Return part
  ∧ ∀ calls resolution',
      let later :=
        after_calls (GraphAnalyzer.detect_communities resolution self).2
          calls in
      (GraphAnalyzer.detect_communities resolution' later).1 = Return part
      ∧ (GraphAnalyzer.detect_communities resolution' later).2 = later
      ∧ later.(GraphAnalyzer._communities_cache) = Some part.
Proof.
  intros Hnone Hpart.
  assert (communities_cached part
            (GraphAnalyzer.detect_communities resolution self).2) as Hc.
  { unfold GraphAnalyzer.detect_communities. by rewrite Hnone, Hpart. }
  split.
  - unfold GraphAnalyzer.detect_communities. by rewrite Hnone, Hpart.
  - intros calls resolution' later.
    assert (communities_cached part later) as Hl.
    { apply after_calls_keeps; auto using calculate_pagerank_keeps_communities,
        calculate_betweenness_keeps_communities,
        detect_communities_keeps_communities. }
    unfold GraphAnalyzer.detect_communities. unfold communities_cached in Hl.
    by rewrite Hl.
Qed.

(** C10: the call of the importance ranking that finds the cache empty and
    on which PageRank returns stores the scores computed for its alpha;
    after any further calls on the instance, the ranking returns that same
    score mapping, whatever alpha it is given, and the cache still holds
    it. *)
Theorem pagerank_first_call_wins self alpha pr :
  self.(GraphAnalyzer._pagerank_cache) = None →
  nx_pagerank self.(GraphAnalyzer.graph) alpha = Return pr →
  (GraphAnalyzer.calculate_pagerank alpha self).1 = Return pr
  ∧ ∀ calls alpha',
      let later :=
        after_calls (GraphAnalyzer.calculate_pagerank alpha self).2 calls in
      (GraphAnalyzer.calculate_pagerank alpha' later).1 = Return pr
      ∧ (GraphAnalyzer.calculate_pagerank alpha' later).2 = later
      ∧ later.(GraphAnalyzer._pagerank_cache) = Some pr.
Proof.
  intros Hnone Hpr.
  assert (pagerank_cached pr
            (GraphAnalyzer.calculate_pagerank alpha self).2) as Hc.
  { unfold GraphAnalyzer.calculate_pagerank. by rewrite Hnone, Hpr. }
  split.
  - unfold GraphAnalyzer.calculate_pagerank. by rewrite Hnone, Hpr.
  - intros calls alpha' later.
    assert (pagerank_cached pr later) as Hl.
    { apply after_calls_keeps; auto using calculate_pagerank_keeps_pagerank,
        calculate_betweenness_keeps_pagerank,
        detect_communities_keeps_pagerank. }
    unfold GraphAnalyzer.calculate_pagerank. unfold pagerank_cached in Hl.
    by rewrite Hl.
Qed.

End Caches.

(** * View statistics *)

Section ViewStatistics.
Context `{Libraries}.
Implicit Types (f : DiagramFilter.t) (g : nx.DiGraph) (nodes : gset string).

Lemma ratio_zero (b : nat) : Spec.ratio 0 b = 0%Qc.
Proof. unfold Spec.ratio, Qcdiv. simpl. apply Qcmult_0_l. Qed.

Lemma view_entry_present g n :
  n ∈ dom g.(nx.node_attrs) →
  DiagramFilter.view_entry g n = Return (Spec.listing_entry g n).
Proof.
  intros [a Ha]%elem_of_dom.
  unfold DiagramFilter.view_entry, nx.nodes_getitem, Spec.listing_entry.
  by rewrite Ha.
Qed.

Lemma listing_loop g (l : list string) (acc : list DiagramFilter.node_entry) :
  (∀ n, n ∈ l → n ∈ dom g.(nx.node_attrs)) →
  for_each (λ (acc : list DiagramFilter.node_entry) node_id,
              e ← DiagramFilter.view_entry g node_id; mret (List.app acc [e]))
           acc l
  = Return (List.app acc (Spec.listing_entry g <$> l)).
Proof.
  revert acc. induction l as [|n l IH]; intros acc Hl; simpl.
  - by rewrite app_nil_r.
  - rewrite view_entry_present by (apply Hl; left). simpl.
    rewrite IH by (intros; apply Hl; by right).
    by rewrite <- app_assoc.
Qed.

(** The nodes of the view that are nodes of the graph. *)
Lemma valid_nodes (b : GraphBuilder.t) nodes :
  nodes ⊆ dom b.(GraphBuilder.graph).(nx.node_attrs) →
  list_to_set
    (filter (λ nid, nx.contains b.(GraphBuilder.graph) nid = true)
            (elements nodes)) = nodes.
Proof.
  intros Hsub. apply set_eq. intros n.
  rewrite elem_of_list_to_set, list_elem_of_filter, elem_of_elements.
  rewrite contains_true. set_solver.
Qed.

Lemma subgraph_number_of_edges g nodes :
  nx.number_of_edges (nx.subgraph g nodes) = size (Spec.induced_edges g nodes).
Proof.
  unfold nx.number_of_edges, nx.subgraph, Spec.induced_edges. simpl.
  rewrite <- (size_dom (D:=gset (string * string))). f_equal.
  apply dom_filter_L. intros e.
  rewrite elem_of_filter, elem_of_dom. unfold is_Some. naive_solver.
Qed.

Lemma subgraph_number_of_nodes g nodes :
  nx.wf g → nodes ⊆ dom g.(nx.node_attrs) →
  nx.number_of_nodes (nx.subgraph g nodes) = size nodes.
Proof.
  intros [Hnd Hord _] Hsub. unfold nx.number_of_nodes, nx.subgraph. simpl.
  unfold size, set_size. simpl. apply Permutation_length.
  apply NoDup_Permutation.
  - by apply NoDup_filter.
  - apply NoDup_elements.
  - intros n. rewrite list_elem_of_filter, elem_of_elements, Hord. set_solver.
Qed.

(** The hotspot view is stored under its name whatever it holds. *)
Lemma create_hotspot_view_stores min_degree min_complexity include_neighbors f :
  ∃ hotspots,
    DiagramFilter.create_hotspot_view min_degree min_complexity
      include_neighbors f
    = (Return hotspots, DiagramFilter.store_view "hotspot" hotspots f).
Proof.
  unfold DiagramFilter.create_hotspot_view.
  unfold mbind, method_mbind, m_bind, m_get, m_lift, m_modify, mret,
    method_ret, m_ret. simpl.
  destruct include_neighbors; [|by eexists].
  destruct (extend_with_neighbors_spec f
              (GraphAnalyzer.find_hotspots f.(DiagramFilter.analyzer)
                 min_degree min_complexity)) as (s & -> & _).
  by eexists.
Qed.

(** The views of the hotspot strategy are sets of nodes of the graph. *)
Lemma find_hotspots_within_graph (a : GraphAnalyzer.t) min_degree
    min_complexity :
  GraphAnalyzer.find_hotspots a min_degree min_complexity
  ⊆ dom a.(GraphAnalyzer.graph).(nx.node_attrs).
Proof.
  unfold GraphAnalyzer.find_hotspots.
  assert (∀ (l : list (string * nx.NodeAttrs)) (acc : gset string),
            (∀ item, item ∈ l →
               item.1 ∈ dom a.(GraphAnalyzer.graph).(nx.node_attrs)) →
            acc ⊆ dom a.(GraphAnalyzer.graph).(nx.node_attrs) →
            foldl (λ (hotspots : gset string) (item : string * nx.NodeAttrs),
                     if bool_decide
                          (min_degree
                           ≤ Z.of_nat (nx.degree a.(GraphAnalyzer.graph) item.1))
                        && bool_decide
                             (Qc_of_Z min_complexity
                              ≤ default 0%Qc item.2.(nx.complexity))%Qc
                     then hotspots ∪ {[item.1]} else hotspots) acc l
            ⊆ dom a.(GraphAnalyzer.graph).(nx.node_attrs)) as Hloop.
  { induction l as [|item l IH]; intros acc Hl Hacc; simpl; [done|].
    apply IH; [intros; apply Hl; by right|].
    destruct (_ && _); [|done].
    apply union_subseteq. split; [done|].
    apply singleton_subseteq_l, Hl. left. }
  apply Hloop; [|set_solver].
  intros item [_ Hitem]%elem_of_nodes_data. apply elem_of_dom. eauto.
Qed.

Lemma hotspot_view_within_graph min_degree min_complexity include_neighbors
    f hotspots f' :
  nx.wf f.(DiagramFilter.builder).(GraphBuilder.graph) →
  f.(DiagramFilter.analyzer).(GraphAnalyzer.graph)
    = f.(DiagramFilter.builder).(GraphBuilder.graph) →
  DiagramFilter.create_hotspot_view min_degree min_complexity
    include_neighbors f = (Return hotspots, f') →
  f'.(DiagramFilter.views) !! "hotspot" = Some hotspots
  ∧ hotspots ⊆ dom f.(DiagramFilter.builder).(GraphBuilder.graph).(nx.node_attrs).
Proof.
  intros [_ _ Hed] Hg. unfold DiagramFilter.create_hotspot_view.
  unfold mbind, method_mbind, m_bind, m_get, m_lift, m_modify, mret,
    method_ret, m_ret. simpl.
  pose proof (find_hotspots_within_graph f.(DiagramFilter.analyzer)
                min_degree min_complexity) as Hhs. rewrite Hg in Hhs.
  destruct include_neighbors.
  - destruct (extend_with_neighbors_spec f
                (GraphAnalyzer.find_hotspots f.(DiagramFilter.analyzer)
                   min_degree min_complexity)) as (s & -> & Hs).
    intros [= <- <-]. simpl. split; [by rewrite lookup_insert_eq|].
    intros x [Hx|(n & Hn & _ & [Hx|Hx])]%Hs.
    + by apply Hhs.
    + apply elem_of_pred_set in Hx. by destruct (Hed x n Hx).
    + apply elem_of_succ_set in Hx. by destruct (Hed n x Hx).
  - intros [= <- <-]. simpl. split; [by rewrite lookup_insert_eq|done].
Qed.

(** C1, as the code has it: ViewStatistics returns "not found" exactly for
    the names without a stored view and the names whose stored view is
    empty; for a stored view that is not empty and whose nodes are nodes of
    the graph it returns the statistics: the number of nodes, the number of
    edges of the induced subgraph, its density (0 for fewer than two nodes)
    and the identity, name and full name of every node of the view. *)
Theorem view_statistics_found f (view_name : string) :
  (DiagramFilter.get_view_statistics f view_name = Return None ↔
     f.(DiagramFilter.views) !! view_name = None
     ∨ f.(DiagramFilter.views) !! view_name = Some ∅)
  ∧ ∀ nodes,
      f.(DiagramFilter.views) !! view_name = Some nodes →
      nodes ≠ ∅ →
      nx.wf f.(DiagramFilter.builder).(GraphBuilder.graph) →
      nodes ⊆ dom f.(DiagramFilter.builder).(GraphBuilder.graph).(nx.node_attrs) →
      let g := f.(DiagramFilter.builder).(GraphBuilder.graph) in
      let edge_count := size (Spec.induced_edges g nodes) in
      DiagramFilter.get_view_statistics f view_name
      = Return (Some
          {| DiagramFilter.vs_view_name := view_name;
             DiagramFilter.vs_node_count := size nodes;
             DiagramFilter.vs_edge_count := edge_count;
             DiagramFilter.vs_density :=
               if decide (size nodes < 2)%nat then 0%Qc
               else Spec.ratio edge_count (size nodes * (size nodes - 1));
             DiagramFilter.vs_nodes :=
               Spec.listing_entry g <$> elements nodes |}).
Proof.
  split.
  - unfold DiagramFilter.get_view_statistics.
    destruct (f.(DiagramFilter.views) !! view_name) as [nodes|]; [|naive_solver].
    case_decide as Hn; [subst; naive_solver|].
    destruct (for_each _ _ _); simpl; split; try done;
      intros [?|?]; congruence.
  - intros nodes Hv Hne Hwf Hsub g edge_count.
    unfold DiagramFilter.get_view_statistics. rewrite Hv.
    rewrite decide_False by done.
    unfold GraphBuilder.get_subgraph_by_nodes. rewrite valid_nodes by done.
    rewrite listing_loop.
    2:{ intros n Hn. apply Hsub. by apply elem_of_elements. }
    simpl. rewrite subgraph_number_of_edges. fold g. fold edge_count.
    do 3 f_equal. unfold nx.density.
    rewrite subgraph_number_of_nodes by done.
    rewrite subgraph_number_of_edges. fold g. fold edge_count.
    fold (Spec.ratio edge_count (size nodes * (size nodes - 1))).
    case_bool_decide; case_decide; try lia; try done.
    case_bool_decide as Hz; [|done].
    destruct Hz as [->|?]; [|lia]. by rewrite ratio_zero.
Qed.

End ViewStatistics.

(** * AutoCreate *)

Section AutoCreate.
Context `{Libraries}.
Implicit Types (w : DiagramFilter.world).
Implicit Types (created : gmap string (gset string)).

(** One round of the loop is the attempt of the strategy's method: the
    round returns whether the method returns or raises. *)
Lemma round_namespace created w :
  DiagramFilter.auto_create_round created NAMESPACE w
  = (Return (add_views
               (attempt NAMESPACE
                  (DiagramFilter.create_namespace_views None 2) w).1 created),
     (attempt NAMESPACE (DiagramFilter.create_namespace_views None 2) w).2).
Proof.
  unfold DiagramFilter.auto_create_round, try_except, DiagramFilter.on_self,
    DiagramFilter.auto_create_body, attempt. simpl.
  unfold mbind, method_mbind, m_bind.
  by destruct (DiagramFilter.create_namespace_views None 2 _) as [[v|e] f'].
Qed.

Lemma round_community created w :
  DiagramFilter.auto_create_round created COMMUNITY w
  = (Return (add_views
               (attempt COMMUNITY
                  (DiagramFilter.create_community_views 3 (Q2Qc 1.0)) w).1
               created),
     (attempt COMMUNITY
        (DiagramFilter.create_community_views 3 (Q2Qc 1.0)) w).2).
Proof.
  unfold DiagramFilter.auto_create_round, try_except, DiagramFilter.on_self,
    DiagramFilter.auto_create_body, attempt. simpl.
  unfold mbind, method_mbind, m_bind.
  by destruct (DiagramFilter.create_community_views 3 _ _) as [[v|e] f'].
Qed.

Lemma round_hotspot created w :
  DiagramFilter.auto_create_round created HOTSPOT w
  = (Return (add_named "hotspot"
               (attempt HOTSPOT
                  (DiagramFilter.create_hotspot_view 5 10 true) w).1 created),
     (attempt HOTSPOT (DiagramFilter.create_hotspot_view 5 10 true) w).2).
Proof.
  unfold DiagramFilter.auto_create_round, try_except, DiagramFilter.on_self,
    DiagramFilter.auto_create_body, attempt. simpl.
  unfold mbind, method_mbind, m_bind.
  destruct (DiagramFilter.create_hotspot_view 5 10 true _) as [[v|e] f'];
    [|done]. simpl. by case_decide.
Qed.

Lemma round_importance created w :
  DiagramFilter.auto_create_round created IMPORTANCE w
  = (Return (add_named "importance_top15"
               (attempt IMPORTANCE
                  (DiagramFilter.create_importance_view 15 "pagerank" true)
                  w).1 created),
     (attempt IMPORTANCE
        (DiagramFilter.create_importance_view 15 "pagerank" true) w).2).
Proof.
  unfold DiagramFilter.auto_create_round, try_except, DiagramFilter.on_self,
    DiagramFilter.auto_create_body, attempt. simpl.
  unfold mbind, method_mbind, m_bind.
  destruct (DiagramFilter.create_importance_view 15 _ true _) as [[v|e] f'];
    [|done]. simpl. by case_decide.
Qed.

(** The context and layer strategies are passed over. *)
Lemma round_skipped created strategy w :
  strategy = CONTEXT ∨ strategy = LAYER →
  DiagramFilter.auto_create_round created strategy w = (Return created, w).
Proof. intros [-> | ->]; by destruct w. Qed.

(** C8, as the code has it: AutoCreate without a strategy list attempts
    the namespace, the community and the hotspot strategy with their
    default parameters and the importance strategy with top_n = 15 (its
    metric and neighbour flag as by default), in this order and nothing
    else; each attempt starts from what the one before left, whether that
    one returned or raised; a strategy that raises is logged and adds
    nothing to the result; and AutoCreate returns.  The hotspot strategy
    itself never raises. *)
Theorem auto_create_attempts_all w :
  let a1 := attempt NAMESPACE (DiagramFilter.create_namespace_views None 2) w in
  let a2 := attempt COMMUNITY
              (DiagramFilter.create_community_views 3 (Q2Qc 1.0)) a1.2 in
  let a3 := attempt HOTSPOT (DiagramFilter.create_hotspot_view 5 10 true) a2.2 in
  let a4 := attempt IMPORTANCE
              (DiagramFilter.create_importance_view 15 "pagerank" true) a3.2 in
  DiagramFilter.auto_create_views None w
  = (Return (add_named "importance_top15" a4.1
               (add_named "hotspot" a3.1
                  (add_views a2.1 (add_views a1.1 ∅)))),
     a4.2)
  ∧ is_Some a3.1
  ∧ a3.2.(DiagramFilter.stdout) = a2.2.(DiagramFilter.stdout).
Proof.
  intros a1 a2 a3 a4. split; [|split].
  - unfold DiagramFilter.auto_create_views, all_strategies. simpl.
    unfold mbind, method_mbind, m_bind.
    rewrite round_skipped by auto. rewrite round_namespace. fold a1.
    rewrite round_community. fold a2.
    rewrite round_hotspot. fold a3.
    rewrite round_importance. fold a4.
    rewrite round_skipped by auto. done.
  - unfold a3, attempt.
    destruct (create_hotspot_view_stores 5 10 true
                a2.2.(DiagramFilter.self_of)) as [hs ->]. by eexists.
  - unfold a3, attempt.
    by destruct (create_hotspot_view_stores 5 10 true
                   a2.2.(DiagramFilter.self_of)) as [hs ->].
Qed.

End AutoCreate.

(** * The theorems at work on the examples *)

Section OnExamples.
Import Examples.

Lemma abc_graph_wf : nx.wf abc_builder.(GraphBuilder.graph).
Proof. apply build_wf. Qed.

(** The scenario of the specification: from A, one hop outwards. *)
Example abc_one_hop_out :
  GraphBuilder.get_nodes_within_hops abc_builder "A" 1 "out"
  = Return {["A"; "B"]}.
Proof. vm_compute. reflexivity. Qed.

Example abc_leaf_and_root :
  GraphAnalyzer.find_leaf_classes abc_analyzer = {["C"]}
  ∧ GraphAnalyzer.find_root_classes abc_analyzer = {["A"]}.
Proof. split; compute_done. Qed.

(** Items of equal score keep their order. *)
Example sorted_desc_is_stable :
  sorted_desc [("a", Q2Qc 1); ("b", Q2Qc 2); ("c", Q2Qc 1)]
  = [("b", Q2Qc 2); ("a", Q2Qc 1); ("c", Q2Qc 1)].
Proof. compute_done. Qed.

Example replace_separators : replace "app::core::io" "::" "_" = "app_core_io".
Proof. reflexivity. Qed.

Example xyz_cohesion_and_coupling :
  (λ report, (GraphAnalyzer.cohesion <$> report !! "ns1",
              GraphAnalyzer.coupling <$> report !! "ns1"))
    <$> (match GraphAnalyzer.analyze_namespace_coupling xyz_analyzer with
         | Return report => Some report
         | Raise _ => None
         end)
  = Some (Some (Q2Qc 0.5), Some (Q2Qc 0.5)).
Proof. compute_done. Qed.

Lemma hops_zero_and_monotone_witness :
  GraphBuilder.get_nodes_within_hops abc_builder "A" 0 "out" = Return {["A"]}
  ∧ ∃ r1 r2,
      GraphBuilder.get_nodes_within_hops abc_builder "A" 1 "out" = Return r1
      ∧ GraphBuilder.get_nodes_within_hops abc_builder "A" (1 + 1) "out"
        = Return r2
      ∧ r1 ⊆ r2.
Proof.
  split.
  - apply (proj1 (hops_zero_and_monotone abc_builder "A" "out")).
    reflexivity.
  - apply (proj2 (hops_zero_and_monotone abc_builder "A" "out") 1). lia.
Defined.

Lemma neighbors_both_is_union_witness :
  GraphBuilder.get_neighbors abc_builder "B" "both"
  = Return (nx.pred_set abc_builder.(GraphBuilder.graph) "B"
            ∪ nx.succ_set abc_builder.(GraphBuilder.graph) "B")
  ∧ GraphBuilder.get_neighbors abc_builder "ghost" "in" = Return ∅.
Proof.
  split.
  - apply (proj1 (neighbors_both_is_union abc_builder "B")). reflexivity.
  - apply (proj2 (neighbors_both_is_union abc_builder "ghost")). reflexivity.
Defined.

Lemma dangling_relationship_dropped_witness :
  GraphBuilder._build_graph abc nx.empty
  = GraphBuilder._build_graph
      {| parser.elements := abc.(parser.elements);
         parser.relationships :=
           [rel "A" "B" "dependency"; rel "B" "C" "extension"] |} nx.empty.
Proof.
  assert ((rel "C" "ghost" "association").(parser.rel_source)
            ∉ (abc.(parser.elements).*1)
          ∨ (rel "C" "ghost" "association").(parser.rel_destination)
            ∉ (abc.(parser.elements).*1)) as Hghost.
  { right. compute_done. }
  apply (proj1 (dangling_relationship_dropped abc.(parser.elements)
                  [rel "A" "B" "dependency"; rel "B" "C" "extension"] []
                  (rel "C" "ghost" "association") Hghost)).
Defined.

Lemma edge_weight_from_kind_witness :
  (∃ r, r ∈ abc.(parser.relationships) ∧ ends r = ("B", "C")
        ∧ (GraphBuilder.edge_kwargs (rel "B" "C" "extension")
             (Q2Qc 2.0)).(nx.e_type) = Some r.(parser.rel_type)
        ∧ (GraphBuilder.edge_kwargs (rel "B" "C" "extension")
             (Q2Qc 2.0)).(nx.weight)
          = Some (GraphBuilder._get_relationship_weight r.(parser.rel_type)))
  ∧ GraphBuilder._get_relationship_weight "realization" = Q2Qc 1.0.
Proof.
  split.
  - apply (proj1 edge_weight_from_kind abc ("B", "C")). vm_compute. reflexivity.
  - apply (proj2 (proj2 (proj2 (proj2 (proj2 (proj2
             edge_weight_from_kind)))))).
    set_solver.
Defined.

Lemma namespace_coupling_report_witness :
  ∃ report,
    GraphAnalyzer.analyze_namespace_coupling xyz_analyzer = Return report
    ∧ dom report = Spec.namespaces xyz_analyzer.(GraphAnalyzer.graph).
Proof.
  destruct (namespace_coupling_report xyz_analyzer (build_wf xyz))
    as (report & Hr & Hd & _).
  by exists report.
Defined.

Lemma communities_first_call_wins_witness :
  let first :=
    @GraphAnalyzer.detect_communities stub_libraries 1%Qc abc_analyzer in
  let later :=
    @after_calls stub_libraries first.2
      [GetAnalysisSummary; DetectCommunities (Q2Qc 2)] in
  (@GraphAnalyzer.detect_communities stub_libraries (Q2Qc 3) later).1 = first.1.
Proof.
  intros first later.
  pose proof (@communities_first_call_wins stub_libraries abc_analyzer 1%Qc
                (gset_to_gmap 1
                   (dom abc_analyzer.(GraphAnalyzer.graph).(nx.node_attrs)))
                eq_refl eq_refl) as [H1 H2].
  destruct (H2 [GetAnalysisSummary; DetectCommunities (Q2Qc 2)] (Q2Qc 3)) as [H3 _].
  unfold later, first. by rewrite H1, H3.
Defined.

Lemma pagerank_first_call_wins_witness :
  let first :=
    @GraphAnalyzer.calculate_pagerank stub_libraries (Q2Qc 0.85) abc_analyzer in
  let later :=
    @after_calls stub_libraries first.2
      [GetTopNodesByMetric "degree" 5; CalculatePagerank (Q2Qc 0.5)] in
  (@GraphAnalyzer.calculate_pagerank stub_libraries (Q2Qc 0.99) later).1
  = first.1.
Proof.
  intros first later.
  pose proof (@pagerank_first_call_wins stub_libraries abc_analyzer
                (Q2Qc 0.85)
                [("A", Q2Qc 0.85); ("B", Q2Qc 0.85); ("C", Q2Qc 0.85)]
                eq_refl eq_refl) as [H1 H2].
  destruct (H2 [GetTopNodesByMetric "degree" 5; CalculatePagerank (Q2Qc 0.5)]
              (Q2Qc 0.99)) as [H3 _].
  unfold later, first. by rewrite H1, H3.
Defined.

Lemma direction_fallback_witness :
  GraphBuilder.get_neighbors abc_builder "B" "sideways"
  = Return (nx.pred_set abc_builder.(GraphBuilder.graph) "B"
            ∪ nx.succ_set abc_builder.(GraphBuilder.graph) "B")
  ∧ DiagramFilter.create_context_view "A" 2 "sideways" None abc_filter
    = DiagramFilter.create_context_view "A" 2 "both" None abc_filter
  ∧ ∃ s, DiagramFilter.extend_with_neighbors abc_filter {["B"]} = Return s.
Proof.
  pose proof (direction_fallback abc_builder "sideways"
                ltac:(discriminate) ltac:(discriminate))
    as (_ & H2 & _ & _ & H5 & H6).
  split; [|split].
  - apply H2. reflexivity.
  - apply H5. reflexivity.
  - destruct (H6 abc_filter {["B"]} eq_refl) as (s & Hs & _). by exists s.
Defined.

Lemma view_statistics_found_witness :
  ∃ stats,
    DiagramFilter.get_view_statistics pair_filter "pair" = Return (Some stats)
    ∧ stats.(DiagramFilter.vs_node_count) = 2%nat
    ∧ stats.(DiagramFilter.vs_edge_count) = 1%nat
    ∧ stats.(DiagramFilter.vs_density) = Q2Qc 0.5.
Proof.
  eexists. split.
  - apply (proj2 (view_statistics_found pair_filter "pair") {["A"; "B"]}).
    + reflexivity.
    + set_solver.
    + apply build_wf.
    + compute_done.
  - repeat split; compute_done.
Defined.

(** C1 fails as stated: on the example no node is a hotspot, the hotspot
    strategy stores the empty view under "hotspot", and the statistics of
    that stored view are "not found". *)
Lemma empty_hotspot_view_not_found :
  let f := (DiagramFilter.create_hotspot_view 5 10 true abc_filter).2 in
  f.(DiagramFilter.views) !! "hotspot" = Some ∅
  ∧ DiagramFilter.get_view_statistics f "hotspot" = Return None
  ∧ ¬ (DiagramFilter.get_view_statistics f "hotspot" = Return None
       ↔ f.(DiagramFilter.views) !! "hotspot" = None).
Proof.
  assert ((DiagramFilter.create_hotspot_view 5 10 true abc_filter).2
            .(DiagramFilter.views) !! "hotspot" = Some ∅) as Hv
    by (vm_compute; reflexivity).
  assert (DiagramFilter.get_view_statistics
            (DiagramFilter.create_hotspot_view 5 10 true abc_filter).2
            "hotspot" = Return None) as Hs by (vm_compute; reflexivity).
  intros f. split; [done|]. split; [done|].
  intros [Hi _]. specialize (Hi Hs). unfold f in Hi. congruence.
Qed.

(** C8 fails as stated: run with its default parameters the importance
    strategy stores its view under "importance_pagerank_top20"; AutoCreate
    stores it under "importance_pagerank_top15" and leaves no view of the
    other name. *)
Lemma auto_create_importance_not_default :
  let ran := @DiagramFilter.auto_create_views stub_libraries None abc_world in
  let claimed := @auto_create_with_defaults stub_libraries abc_world in
  ran.2.(DiagramFilter.self_of).(DiagramFilter.views)
    !! "importance_pagerank_top20" = None
  ∧ ran.2.(DiagramFilter.self_of).(DiagramFilter.views)
      !! "importance_pagerank_top15" = Some {["A"; "B"; "C"]}
  ∧ claimed.2.(DiagramFilter.self_of).(DiagramFilter.views)
      !! "importance_pagerank_top20" = Some {["A"; "B"; "C"]}
  ∧ ran ≠ claimed.
Proof.
  assert ((@DiagramFilter.auto_create_views stub_libraries None abc_world).2
            .(DiagramFilter.self_of).(DiagramFilter.views)
            !! "importance_pagerank_top20" = None) as H1 by (vm_compute; reflexivity).
  assert ((@auto_create_with_defaults stub_libraries abc_world).2
            .(DiagramFilter.self_of).(DiagramFilter.views)
            !! "importance_pagerank_top20" = Some {["A"; "B"; "C"]}) as H3
    by (vm_compute; reflexivity).
  intros ran claimed. split; [done|]. split; [vm_compute; reflexivity|].
  split; [done|]. intros Heq. unfold ran, claimed in Heq.
  rewrite Heq in H1. congruence.
Qed.

End OnExamples.
